(** * diffeq-flow development servers: content types, header policy, start-up

    A shallow embedding of the three server scripts of the repository
    ([server.py], [server2.py], [https-server.py]):

    - [Resolver]: the MIME table and [guess_type] of [server2.py];
    - [Handler]: the [end_headers] override of [server.py] and [server2.py];
    - [Script]: the start-up and shut-down sequence of the three scripts as
      programs in a trace-and-exception monad over an explicit operating
      system oracle.

    A Python [str] is represented by the Rocq [string] of its UTF-8 bytes:
    equality of strings, the characters ['.'] and ['/'] and the ASCII letters
    are the same on both sides. *)

From Stdlib Require Import String Ascii ZArith List Bool Lia.
From Stdlib Require Import DecimalString.
Import ListNotations.
Local Open Scope string_scope.
Local Open Scope Z_scope.

(** ** Python exceptions and results *)

(** The exception classes that the scripts can meet.  [KeyboardInterrupt] and
    [SystemExit] derive from [BaseException] only; the others derive from
    [Exception]. *)
Inductive exn : Type :=
| KeyboardInterrupt
| SystemExit (code : Z)
| KeyError
| ValueError
| FileNotFoundError
| PermissionError
| ProcessLookupError
| OSError
| SSLError.

(** [isinstance(e, Exception)]. *)
Definition is_Exception (e : exn) : bool :=
  match e with
  | KeyboardInterrupt | SystemExit _ => false
  | _ => true
  end.

(** A Python evaluation either raises or returns. *)
Inductive result (A : Type) : Type :=
| Raise (e : exn)
| Return (a : A).
Arguments Raise {A} e.
Arguments Return {A} a.

(** ** Strings *)

Module Str.

(** [s[i:]] for [0 <= i]. *)
Fixpoint drop (n : nat) (s : string) : string :=
  match n, s with
  | O, _ => s
  | S _, EmptyString => EmptyString
  | S n', String _ s' => drop n' s'
  end.

(** [s[:i]] for [0 <= i]. *)
Fixpoint take (n : nat) (s : string) : string :=
  match n, s with
  | O, _ => EmptyString
  | S _, EmptyString => EmptyString
  | S n', String c s' => String c (take n' s')
  end.

(** [s.rfind(c)] for a one-character [c]: the highest index of [c], or
    [-1].  [i] is the index of the head of [s], [last] the answer so far. *)
Fixpoint rfind_from (c : ascii) (s : string) (i last : Z) : Z :=
  match s with
  | EmptyString => last
  | String a s' => rfind_from c s' (i + 1) (if Ascii.eqb a c then i else last)
  end.

Definition rfind (c : ascii) (s : string) : Z := rfind_from c s 0 (-1).

(** [s[i:i+1]]: the empty string when [i] is out of range. *)
Definition char_at (s : string) (i : Z) : string :=
  if i <? 0 then EmptyString else take 1 (drop (Z.to_nat i) s).

Definition is_ascii_char (c : ascii) : bool := (nat_of_ascii c <? 128)%nat.

Fixpoint isascii (s : string) : bool :=
  match s with
  | EmptyString => true
  | String c s' => is_ascii_char c && isascii s'
  end.

(** ['A'..'Z'] to ['a'..'z'], every other byte unchanged. *)
Definition lower_char (c : ascii) : ascii :=
  let n := nat_of_ascii c in
  if ((65 <=? n) && (n <=? 90))%nat then ascii_of_nat (n + 32) else c.

Fixpoint lower_ascii (s : string) : string :=
  match s with
  | EmptyString => EmptyString
  | String c s' => String (lower_char c) (lower_ascii s')
  end.

(** The whitespace that [str.strip()] removes, in the ASCII range:
    TAB, LF, VT, FF, CR, the separators 0x1c..0x1f and the space. *)
Definition is_space (c : ascii) : bool :=
  let n := nat_of_ascii c in
  ((9 <=? n) && (n <=? 13) || (28 <=? n) && (n <=? 32))%nat.

Fixpoint lstrip (s : string) : string :=
  match s with
  | EmptyString => EmptyString
  | String c s' => if is_space c then lstrip s' else s
  end.

(** Removes trailing whitespace: a character is dropped when it is
    whitespace and nothing but whitespace follows it. *)
Fixpoint rstrip (s : string) : string :=
  match s with
  | EmptyString => EmptyString
  | String c s' =>
      match rstrip s' with
      | EmptyString => if is_space c then EmptyString else String c EmptyString
      | r => String c r
      end
  end.

Definition strip (s : string) : string := rstrip (lstrip s).

(** [s.split(sep)] for a one-character separator: never the empty list. *)
Fixpoint split (sep : ascii) (s : string) : list string :=
  match s with
  | EmptyString => [EmptyString]
  | String c s' =>
      if Ascii.eqb c sep then EmptyString :: split sep s'
      else match split sep s' with
           | [] => [String c EmptyString]
           | w :: ws => String c w :: ws
           end
  end.

(** [c in s] for a one-character [c]. *)
Fixpoint has_char (c : ascii) (s : string) : bool :=
  match s with
  | EmptyString => false
  | String a s' => Ascii.eqb a c || has_char c s'
  end.

(** The string is made of dots only. *)
Fixpoint only_dots (s : string) : bool :=
  match s with
  | EmptyString => true
  | String a s' => Ascii.eqb a "." && only_dots s'
  end.

(** [str(n)] and [f"{n}"] for an integer. *)
Definition of_Z (n : Z) : string := NilZero.string_of_int (Z.to_int n).

End Str.

(** ** Content-type resolution ([server2.py]) *)

Module Resolver.

(** The [while filenameIndex < dotIndex] loop of [splitext], [n] being
    [dotIndex - filenameIndex]: [true] when a character other than the dot
    is met, which is where the loop returns the split. *)
Fixpoint skip_leading_dots (p : string) (filenameIndex : Z) (n : nat) : bool :=
  match n with
  | O => false
  | S n' =>
      if negb (String.eqb (Str.char_at p filenameIndex) ".") then true
      else skip_leading_dots p (filenameIndex + 1) n'
  end.

(** [os.path.splitext] of a POSIX system, where [lsof] and [fuser] are: the
    extension starts at the last dot of the last path segment, leading dots
    of that segment not counting. *)
Definition splitext (p : string) : string * string :=
  let sepIndex := Str.rfind "/" p in
  let dotIndex := Str.rfind "." p in
  if (sepIndex <? dotIndex)
     && skip_leading_dots p (sepIndex + 1) (Z.to_nat (dotIndex - (sepIndex + 1)))
  then (Str.take (Z.to_nat dotIndex) p, Str.drop (Z.to_nat dotIndex) p)
  else (p, EmptyString).

(** [JSHTTPRequestHandler.extensions_map], in the order of the source. *)
Definition extensions_map : list (string * string) :=
  [ (".html", "text/html");
    (".js", "application/javascript");
    (".mjs", "application/javascript");
    (".json", "application/json");
    (".css", "text/css");
    (".png", "image/png");
    (".jpg", "image/jpeg");
    (".svg", "image/svg+xml");
    (".wasm", "application/wasm");
    ("", "application/octet-stream") ].

(** [k in d] for a dict. *)
Fixpoint contains (d : list (string * string)) (k : string) : bool :=
  match d with
  | [] => false
  | (k', _) :: d' => String.eqb k k' || contains d' k
  end.

(** [d[k]]: raises [KeyError] for an absent key. *)
Fixpoint getitem (d : list (string * string)) (k : string) : result string :=
  match d with
  | [] => Raise KeyError
  | (k', v) :: d' => if String.eqb k k' then Return v else getitem d' k
  end.

Section WithUnicode.

(** [str.lower()] on a string that holds a non-ASCII character follows
    the Unicode case tables, which are no part of the repository. *)
Variable unicode_lower : string -> string.

(** [str.lower()]. *)
Definition lower (s : string) : string :=
  if Str.isascii s then Str.lower_ascii s else unicode_lower s.

(** [JSHTTPRequestHandler.guess_type]. *)
Definition guess_type (path : string) : result string :=
  let '(base, ext) := splitext path in
  if contains extensions_map ext then getitem extensions_map ext
  else
    let ext := lower ext in
    if contains extensions_map ext then getitem extensions_map ext
    else getitem extensions_map "".

(** The resolver in the words of the specification: the extension is
    looked up case-sensitively first, then case-insensitively (an entry
    matches when its key and the extension are the same in lower case),
    then the fallback type is returned. *)
Definition lookup_case_sensitive (k : string) : option string :=
  option_map snd (find (fun entry => String.eqb (fst entry) k) extensions_map).

Definition lookup_case_insensitive (k : string) : option string :=
  option_map snd
    (find (fun entry => String.eqb (lower (fst entry)) (lower k)) extensions_map).

Definition resolve_spec (path : string) : string :=
  let ext := snd (splitext path) in
  match lookup_case_sensitive ext with
  | Some mime => mime
  | None =>
      match lookup_case_insensitive ext with
      | Some mime => mime
      | None => "application/octet-stream"
      end
  end.

End WithUnicode.

(** An extension that is [target] up to the case of its ASCII letters. *)
Definition eq_ignore_case (ext target : string) : bool :=
  String.eqb (Str.lower_ascii ext) (Str.lower_ascii target).

End Resolver.

(** ** Response header policy ([server.py], [server2.py]) *)

Module Handler.

Definition CRLF : string := String "013" (String "010" EmptyString).

(** The part of a [BaseHTTPRequestHandler] that header output touches: the
    version of the request being answered ([request_version], which is
    [HTTP/0.9] for a request line without a version and while a request
    line has not been parsed), the lines waiting in [_headers_buffer], and
    what has been written to the connection ([wfile]), line by line.  The
    [close_connection] flag, which [send_header] sets for a [Connection]
    header, is no part of the output and is left out. *)
Record handler : Type := {
  request_version : string;
  headers_buffer : list string;
  wfile : list string
}.

(** A handler that has written nothing, answering a request of the given
    version. *)
Definition fresh (version : string) : handler :=
  {| request_version := version; headers_buffer := []; wfile := [] |}.

(** [self.request_version != 'HTTP/0.9']: the response has a header
    block. *)
Definition has_headers (self : handler) : bool :=
  negb (String.eqb (request_version self) "HTTP/0.9").

(** [send_response_only(code, message)]: buffers the status line, under
    the protocol version [HTTP/1.0] of the library that neither class
    changes; nothing for an HTTP/0.9 request. *)
Definition send_response_only (code : Z) (message : string) (self : handler)
  : handler :=
  if has_headers self
  then {| request_version := request_version self;
          headers_buffer :=
            headers_buffer self
            ++ ["HTTP/1.0 " ++ Str.of_Z code ++ " " ++ message ++ CRLF];
          wfile := wfile self |}
  else self.

(** [send_header(keyword, value)]: buffers one header line; nothing for an
    HTTP/0.9 request. *)
Definition send_header (keyword value : string) (self : handler) : handler :=
  if has_headers self
  then {| request_version := request_version self;
          headers_buffer := headers_buffer self ++ [keyword ++ ": " ++ value ++ CRLF];
          wfile := wfile self |}
  else self.

(** [flush_headers()]: writes the buffer out and empties it. *)
Definition flush_headers (self : handler) : handler :=
  {| request_version := request_version self;
     headers_buffer := [];
     wfile := wfile self ++ headers_buffer self |}.

(** [BaseHTTPRequestHandler.end_headers()]: the blank line, then the
    flush; nothing for an HTTP/0.9 request. *)
Definition super_end_headers (self : handler) : handler :=
  if has_headers self
  then flush_headers
         {| request_version := request_version self;
            headers_buffer := headers_buffer self ++ [CRLF];
            wfile := wfile self |}
  else self.

(** [wfile.write(body)]. *)
Definition write (body : string) (self : handler) : handler :=
  {| request_version := request_version self;
     headers_buffer := headers_buffer self;
     wfile := wfile self ++ [body] |}.

(** [MyHTTPRequestHandler.end_headers] of [server.py]. *)
Module MyHTTPRequestHandler.
Definition end_headers (self : handler) : handler :=
  let self := send_header "Access-Control-Allow-Origin" "*" self in
  let self := send_header "Cache-Control" "no-cache, no-store, must-revalidate" self in
  let self := send_header "Pragma" "no-cache" self in
  let self := send_header "Expires" "0" self in
  super_end_headers self.
End MyHTTPRequestHandler.

(** [JSHTTPRequestHandler.end_headers] of [server2.py]. *)
Module JSHTTPRequestHandler.
Definition end_headers (self : handler) : handler :=
  let self := send_header "Access-Control-Allow-Origin" "*" self in
  let self := send_header "Cache-Control" "no-cache, no-store, must-revalidate" self in
  let self := send_header "Pragma" "no-cache" self in
  let self := send_header "Expires" "0" self in
  super_end_headers self.
End JSHTTPRequestHandler.

(** What the static-file responder of the library does to a handler before
    it ends the headers: a status line and any headers of its own, in any
    number and order. *)
Inductive action : Type :=
| SendResponseOnly (code : Z) (message : string)
| SendHeader (keyword value : string).

Definition perform (a : action) (self : handler) : handler :=
  match a with
  | SendResponseOnly code message => send_response_only code message self
  | SendHeader keyword value => send_header keyword value self
  end.

(** A response: the responder's actions, then [self.end_headers()], which
    is the override of the handler class in use, then the body. *)
Definition respond (end_headers : handler -> handler)
           (actions : list action) (body : string) (self : handler) : handler :=
  write body (end_headers (fold_left (fun h a => perform a h) actions self)).

(** [send_response(code, message)] of the library: the status line, then
    the [Server] and [Date] headers, [server] and [date] being what
    [version_string()] and [date_time_string()] give. *)
Definition send_response (server date : string) (code : Z) (message : string)
  : list action :=
  [ SendResponseOnly code message;
    SendHeader "Server" server;
    SendHeader "Date" date ].

(** The library's [send_error] for a file that is not found, as
    [send_head] calls it, answering a [GET]. *)
Definition not_found (end_headers : handler -> handler)
           (server date : string) (body : string)
  : handler -> handler :=
  respond end_headers
    (send_response server date 404 "File not found"
     ++ [ SendHeader "Connection" "close";
          SendHeader "Content-Type" "text/html;charset=utf-8";
          SendHeader "Content-Length" (Str.of_Z (Z.of_nat (String.length body))) ])
    body.


End Handler.

(** ** The scripts as processes *)

Module Script.

Definition nl : string := String "010" EmptyString.
Definition dquote : string := String "034" EmptyString.

(** [signal.SIGTERM]. *)
Definition SIGTERM : Z := 15.

(** What a script does to the world outside, in the order it does it. *)
Inductive event : Type :=
| EvPrint (line : string)
    (* print(line) *)
| EvPathExists (path : string)
    (* os.path.exists(path) *)
| EvRun (cmd : list string)
    (* subprocess.run(cmd, ...) *)
| EvKill (pid sig : Z)
    (* os.kill(pid, sig) *)
| EvBind (port : Z) (reuse : bool)
    (* the server constructor: the listening socket is created, given
       SO_REUSEADDR when the class allows address reuse, bound to
       ('', port) and set to listen; on failure it is closed again *)
| EvLoadCertChain (certfile keyfile : string)
    (* ssl_context.load_cert_chain(certfile, keyfile) *)
| EvWrapSocket
    (* ssl_context.wrap_socket(httpd.socket, server_side=True) *)
| EvServeForever
    (* httpd.serve_forever() *)
| EvServerClose.
    (* httpd.server_close(), from the with statement *)

(** [subprocess.CompletedProcess]. *)
Record CompletedProcess : Type := {
  returncode : Z;
  stdout : string
}.

(** The world a script runs in: its command line, and for every call that
    leaves the script what that call answers, given all that the script
    has done before ([list event]).  [int_] is the builtin [int] on a
    string, [None] standing for its [ValueError]. *)
Record World : Type := {
  argv : list string;
  int_ : string -> option Z;
  getcwd : string;
  path_exists : list event -> string -> bool;
  subprocess_run : list event -> list string -> result CompletedProcess;
  os_kill : list event -> Z -> Z -> result unit;
  server_bind : list event -> Z -> bool -> result unit;
  load_cert_chain : list event -> string -> string -> result unit;
  wrap_socket : list event -> result unit;
  serve_forever : list event -> result unit
}.

(** The state of the interpreter: what has happened so far, and the two
    class attributes the scripts assign or rely on, with the values the
    library gives them ([socketserver.TCPServer] does not allow address
    reuse, [http.server.HTTPServer] does). *)
Record proc : Type := {
  trace : list event;
  TCPServer_allow_reuse_address : bool;
  HTTPServer_allow_reuse_address : bool
}.

Definition start : proc :=
  {| trace := [];
     TCPServer_allow_reuse_address := false;
     HTTPServer_allow_reuse_address := true |}.

Definition log (ev : event) (s : proc) : proc :=
  {| trace := trace s ++ [ev];
     TCPServer_allow_reuse_address := TCPServer_allow_reuse_address s;
     HTTPServer_allow_reuse_address := HTTPServer_allow_reuse_address s |}.

(** *** The monad of statements *)

Definition M (A : Type) : Type := proc -> proc * result A.

Definition ret {A} (a : A) : M A := fun s => (s, Return a).

Definition bind {A B} (m : M A) (f : A -> M B) : M B :=
  fun s =>
    match m s with
    | (s', Return a) => f a s'
    | (s', Raise e) => (s', Raise e)
    end.

Definition raise {A} (e : exn) : M A := fun s => (s, Raise e).

Declare Scope script_scope.
Delimit Scope script_scope with script.
Notation "x <- m ;; k" := (bind m (fun x => k))
  (at level 61, m at next level, right associativity) : script_scope.
Notation "m ;; k" := (bind m (fun _ => k))
  (at level 61, right associativity) : script_scope.
Local Open Scope script_scope.

(** [try: body / except <classes>: handler], [catches] telling which
    exceptions the clause names. *)
Definition try_except {A} (body : M A) (catches : exn -> bool)
           (handler : M A) : M A :=
  fun s =>
    match body s with
    | (s', Raise e) => if catches e then handler s' else (s', Raise e)
    | r => r
    end.

(** A call that leaves the script: it is recorded, and the world answers
    from what had happened before it. *)
Definition call {A} (ev : event) (answer : list event -> result A) : M A :=
  fun s => (log ev s, answer (trace s)).

Definition print (line : string) : M unit :=
  call (EvPrint line) (fun _ => Return tt).

(** [sys.exit(code)]. *)
Definition sys_exit {A} (code : Z) : M A := raise (SystemExit code).

(** [for x in xs: body]. *)
Fixpoint for_each {A} (xs : list A) (body : A -> M unit) : M unit :=
  match xs with
  | [] => ret tt
  | x :: xs' => body x ;; for_each xs' body
  end.

(** [with server as httpd: body]: the server is closed however the body
    ends, and an exception of the body goes on. *)
Definition with_server (body : M unit) : M unit :=
  fun s =>
    match body s with
    | (s', r) => (log EvServerClose s', r)
    end.

Definition is_KeyboardInterrupt (e : exn) : bool :=
  match e with KeyboardInterrupt => true | _ => false end.

Definition any_exception (e : exn) : bool := true.

(** Truth of a string: it is not empty. *)
Definition truthy (s : string) : bool :=
  match s with EmptyString => false | _ => true end.

Section InWorld.

Variable w : World.

(** [int(s)]. *)
Definition int (s : string) : M Z :=
  match int_ w s with
  | Some n => ret n
  | None => raise ValueError
  end.

(** [socketserver.TCPServer((host, port), handler)]. *)
Definition TCPServer (port : Z) : M unit :=
  fun s =>
    let reuse := TCPServer_allow_reuse_address s in
    call (EvBind port reuse) (fun h => server_bind w h port reuse) s.

(** [http.server.HTTPServer((host, port), handler)]. *)
Definition HTTPServer (port : Z) : M unit :=
  fun s =>
    let reuse := HTTPServer_allow_reuse_address s in
    call (EvBind port reuse) (fun h => server_bind w h port reuse) s.

(** [socketserver.TCPServer.allow_reuse_address = b]. *)
Definition set_TCPServer_allow_reuse_address (b : bool) : M unit :=
  fun s =>
    ({| trace := trace s;
        TCPServer_allow_reuse_address := b;
        HTTPServer_allow_reuse_address := HTTPServer_allow_reuse_address s |},
     Return tt).

(** [HTTPServer.allow_reuse_address = b]. *)
Definition set_HTTPServer_allow_reuse_address (b : bool) : M unit :=
  fun s =>
    ({| trace := trace s;
        TCPServer_allow_reuse_address := TCPServer_allow_reuse_address s;
        HTTPServer_allow_reuse_address := b |},
     Return tt).

Definition run_command (cmd : list string) : M CompletedProcess :=
  call (EvRun cmd) (fun h => subprocess_run w h cmd).

Definition kill (pid sig : Z) : M unit :=
  call (EvKill pid sig) (fun h => os_kill w h pid sig).

Definition exists_ (path : string) : M bool :=
  call (EvPathExists path) (fun h => Return (path_exists w h path)).

Definition lsof_command (port : Z) : list string :=
  ["lsof"; "-ti"; ":" ++ Str.of_Z port].

Definition fuser_command (port : Z) : list string :=
  ["fuser"; "-k"; Str.of_Z port ++ "/tcp"].

(** [kill_process_on_port] of [server.py] and of [server2.py], which
    define it in the same words. *)
Definition kill_process_on_port (port : Z) : M unit :=
  try_except
    (result <- run_command (lsof_command port) ;;
     if (returncode result =? 0) && truthy (Str.strip (stdout result))
     then
       let pids := Str.split "010" (Str.strip (stdout result)) in
       for_each pids (fun pid =>
         print ("Killing existing process " ++ pid ++ " on port "
                ++ Str.of_Z port) ;;
         n <- int pid ;;
         kill n SIGTERM)
     else ret tt)
    is_Exception
    (try_except
       (run_command (fuser_command port) ;; ret tt)
       any_exception
       (ret tt)).

(** [PORT] of [server.py] and of [server2.py]. *)
Definition PORT : Z := 8081.

(** [server.py], from the call of [kill_process_on_port] on. *)
Definition server_py : M unit :=
  kill_process_on_port PORT ;;
  set_TCPServer_allow_reuse_address true ;;
  TCPServer PORT ;;
  with_server
    (print ("Server running at http://0.0.0.0:" ++ Str.of_Z PORT ++ "/") ;;
     print ("Access locally: http://localhost:" ++ Str.of_Z PORT ++ "/") ;;
     print "Press Ctrl+C to stop" ;;
     try_except
       (call EvServeForever (serve_forever w))
       is_KeyboardInterrupt
       (print (nl ++ "Server stopped."))).

(** [server2.py], from the call of [kill_process_on_port] on. *)
Definition server2_py : M unit :=
  kill_process_on_port PORT ;;
  set_HTTPServer_allow_reuse_address true ;;
  HTTPServer PORT ;;
  with_server
    (print ("Server running at http://0.0.0.0:" ++ Str.of_Z PORT ++ "/") ;;
     print ("Access locally: http://localhost:" ++ Str.of_Z PORT ++ "/") ;;
     print "Press Ctrl+C to stop" ;;
     try_except
       (call EvServeForever (serve_forever w))
       is_KeyboardInterrupt
       (print (nl ++ "Server stopped."))).

(** The command [https-server.py] suggests when a file is missing. *)
Definition openssl_hint : string :=
  "  openssl req -x509 -newkey rsa:4096 -keyout key.pem -out cert.pem -days 365 -nodes -subj "
  ++ dquote ++ "/CN=localhost" ++ dquote.

(** The three lines it prints then. *)
Definition diagnostic : list string :=
  [ "Error: cert.pem and key.pem not found!";
    "Generate them with:";
    openssl_hint ].

(** [PORT = 8443 if len(sys.argv) < 2 else int(sys.argv[1])]. *)
Definition https_PORT : M Z :=
  if (Z.of_nat (List.length (argv w)) <? 2) then ret 8443
  else int (nth 1 (argv w) EmptyString).

(** [not os.path.exists('cert.pem') or not os.path.exists('key.pem')]:
    the second file is looked for only when the first is there. *)
Definition material_missing : M bool :=
  cert <- exists_ "cert.pem" ;;
  if negb cert then ret true
  else key <- exists_ "key.pem" ;; ret (negb key).

(** [https-server.py].  The construction of the [SSLContext] between the
    server and [load_cert_chain] touches nothing outside the script and
    leaves no event. *)
Definition https_server_py : M unit :=
  port <- https_PORT ;;
  missing <- material_missing ;;
  (if missing : bool
   then
     print "Error: cert.pem and key.pem not found!" ;;
     print "Generate them with:" ;;
     print openssl_hint ;;
     sys_exit 1
   else ret tt) ;;
  HTTPServer port ;;
  call (EvLoadCertChain "cert.pem" "key.pem")
       (fun h => load_cert_chain w h "cert.pem" "key.pem") ;;
  call EvWrapSocket (wrap_socket w) ;;
  print ("🔒 HTTPS server running on https://localhost:" ++ Str.of_Z port ++ "/") ;;
  print ("📁 Serving files from: " ++ getcwd w) ;;
  print "⚠️  Using self-signed certificate - browser will show security warning" ;;
  print "   Accept the warning to continue (this is safe for local development)" ;;
  print (nl ++ "Press Ctrl+C to stop" ++ nl) ;;
  try_except
    (call EvServeForever (serve_forever w))
    is_KeyboardInterrupt
    (print (nl ++ nl ++ "Server stopped.") ;; sys_exit 0).

End InWorld.

(** *** Processes *)

(** How a process ends: with an exit status, or with a traceback for an
    exception nothing caught, which the shell sees as a failure. *)
Inductive termination : Type :=
| Exited (status : Z)
| Traceback (e : exn).

Definition terminate (r : result unit) : termination :=
  match r with
  | Return _ => Exited 0
  | Raise (SystemExit code) => Exited code
  | Raise e => Traceback e
  end.

(** The status is zero. *)
Definition succeeded (t : termination) : bool :=
  match t with
  | Exited status => status =? 0
  | Traceback _ => false
  end.

(** Runs a script from the start of the interpreter. *)
Definition run (script : M unit) : list event * termination :=
  match script start with
  | (s, r) => (trace s, terminate r)
  end.

Definition events (script : M unit) : list event := fst (run script).
Definition ending (script : M unit) : termination := snd (run script).

(** The three variants. *)
Inductive variant : Type := ServerPy | Server2Py | HttpsServerPy.

Definition script_of (v : variant) (w : World) : M unit :=
  match v with
  | ServerPy => server_py w
  | Server2Py => server2_py w
  | HttpsServerPy => https_server_py w
  end.

(** *** Reading a trace *)

Definition is_bind (ev : event) : bool :=
  match ev with EvBind _ _ => true | _ => false end.

Definition is_serve (ev : event) : bool :=
  match ev with EvServeForever => true | _ => false end.

Definition is_kill (ev : event) : bool :=
  match ev with EvKill _ _ => true | _ => false end.

Definition is_lsof (ev : event) : bool :=
  match ev with
  | EvRun (cmd :: _) => String.eqb cmd "lsof"
  | _ => false
  end.

Definition is_fuser (ev : event) : bool :=
  match ev with
  | EvRun (cmd :: _) => String.eqb cmd "fuser"
  | _ => false
  end.

(** The lines printed, in order. *)
Fixpoint printed (tr : list event) : list string :=
  match tr with
  | [] => []
  | EvPrint line :: tr' => line :: printed tr'
  | _ :: tr' => printed tr'
  end.

(** The ports bound, with the address-reuse flag of each. *)
Fixpoint bound (tr : list event) : list (Z * bool) :=
  match tr with
  | [] => []
  | EvBind port reuse :: tr' => (port, reuse) :: bound tr'
  | _ :: tr' => bound tr'
  end.

(** The events of the port reclaimer: its two commands, its signals and
    its messages. *)
Definition reclaim_event (ev : event) : bool :=
  match ev with
  | EvPrint _ | EvRun _ | EvKill _ _ => true
  | _ => false
  end.

(** The interpreter after further events. *)
Definition extend (s : proc) (tr : list event) : proc :=
  {| trace := trace s ++ tr;
     TCPServer_allow_reuse_address := TCPServer_allow_reuse_address s;
     HTTPServer_allow_reuse_address := HTTPServer_allow_reuse_address s |}.

(** What the port reclaimer does from the start of a script. *)
Definition reclaimed (w : World) : list event :=
  trace (fst (kill_process_on_port w PORT start)).

(** *** Conditions on a world *)

(** The file is not in the working directory. *)
Definition absent (w : World) (name : string) : Prop :=
  forall h, path_exists w h name = false.

(** The command line has no port argument, or one that [int] accepts. *)
Definition port_argument_ok (w : World) : Prop :=
  (List.length (argv w) < 2)%nat
  \/ exists n, int_ w (nth 1 (argv w) EmptyString) = Some n.

(** The failures of the lookup and of the signals are errors in the
    ordinary sense: instances of [Exception], as every [OSError] is. *)
Definition ordinary_failures (w : World) : Prop :=
  (forall h cmd e, subprocess_run w h cmd = Raise e -> is_Exception e = true)
  /\ (forall h pid sig e, os_kill w h pid sig = Raise e -> is_Exception e = true).

(** The same world under another command line. *)
Definition with_argv (w : World) (args : list string) : World :=
  {| argv := args;
     int_ := int_ w;
     getcwd := getcwd w;
     path_exists := path_exists w;
     subprocess_run := subprocess_run w;
     os_kill := os_kill w;
     server_bind := server_bind w;
     load_cert_chain := load_cert_chain w;
     wrap_socket := wrap_socket w;
     serve_forever := serve_forever w |}.

(** The port [https-server.py] is asked to use: its first argument, when
    there is one. *)
Definition port_argument (args : list string) : option string :=
  match args with
  | _ :: a :: _ => Some a
  | _ => None
  end.

(** What a script does once [serve_forever] has been interrupted. *)
Definition shutdown (v : variant) : list event :=
  match v with
  | ServerPy | Server2Py => [EvPrint (nl ++ "Server stopped."); EvServerClose]
  | HttpsServerPy => [EvPrint (nl ++ nl ++ "Server stopped.")]
  end.

(** The banner of the two plain servers. *)
Definition plain_banner : list event :=
  [ EvPrint ("Server running at http://0.0.0.0:" ++ Str.of_Z PORT ++ "/");
    EvPrint ("Access locally: http://localhost:" ++ Str.of_Z PORT ++ "/");
    EvPrint "Press Ctrl+C to stop" ].

(** The banner of the TLS server. *)
Definition https_banner (w : World) (port : Z) : list event :=
  [ EvPrint ("🔒 HTTPS server running on https://localhost:" ++ Str.of_Z port ++ "/");
    EvPrint ("📁 Serving files from: " ++ getcwd w);
    EvPrint "⚠️  Using self-signed certificate - browser will show security warning";
    EvPrint "   Accept the warning to continue (this is safe for local development)";
    EvPrint (nl ++ "Press Ctrl+C to stop" ++ nl) ].

(** *** The course of a run

    The runs of the scripts written out answer by answer; the section on
    the scripts below proves that these are the runs of the definitions
    above. *)

(** After the server of a plain variant has been constructed at history
    [h]. *)
Definition plain_serving (w : World) (h : list event) : list event * termination :=
  let h := (h ++ EvBind PORT true :: plain_banner)%list in
  match serve_forever w h with
  | Raise KeyboardInterrupt =>
      ((h ++ [EvServeForever; EvPrint (nl ++ "Server stopped."); EvServerClose])%list,
       Exited 0)
  | r => ((h ++ [EvServeForever; EvServerClose])%list, terminate r)
  end.

Definition plain_course (w : World) : list event * termination :=
  match kill_process_on_port w PORT start with
  | (s, Raise e) => (trace s, terminate (Raise e))
  | (s, Return _) =>
      match server_bind w (trace s) PORT true with
      | Raise e => ((trace s ++ [EvBind PORT true])%list, terminate (Raise e))
      | Return _ => plain_serving w (trace s)
      end
  end.

(** After the certificate files have been found, at history [h]. *)
Definition https_serving (w : World) (port : Z) (h : list event)
  : list event * termination :=
  match server_bind w h port true with
  | Raise e => ((h ++ [EvBind port true])%list, terminate (Raise e))
  | Return _ =>
      let h := (h ++ [EvBind port true])%list in
      match load_cert_chain w h "cert.pem" "key.pem" with
      | Raise e =>
          ((h ++ [EvLoadCertChain "cert.pem" "key.pem"])%list, terminate (Raise e))
      | Return _ =>
          let h := (h ++ [EvLoadCertChain "cert.pem" "key.pem"])%list in
          match wrap_socket w h with
          | Raise e => ((h ++ [EvWrapSocket])%list, terminate (Raise e))
          | Return _ =>
              let h := (h ++ EvWrapSocket :: https_banner w port)%list in
              match serve_forever w h with
              | Raise KeyboardInterrupt =>
                  ((h ++ [EvServeForever;
                          EvPrint (nl ++ nl ++ "Server stopped.")])%list,
                   Exited 0)
              | r => ((h ++ [EvServeForever])%list, terminate r)
              end
          end
      end
  end.

Definition https_course (w : World) : list event * termination :=
  match (if (Z.of_nat (List.length (argv w)) <? 2) then Some 8443
         else int_ w (nth 1 (argv w) EmptyString)) with
  | None => ([], Traceback ValueError)
  | Some port =>
      if negb (path_exists w [] "cert.pem")
      then (EvPathExists "cert.pem" :: map EvPrint diagnostic, Exited 1)
      else if negb (path_exists w [EvPathExists "cert.pem"] "key.pem")
      then (EvPathExists "cert.pem" :: EvPathExists "key.pem"
              :: map EvPrint diagnostic, Exited 1)
      else https_serving w port [EvPathExists "cert.pem"; EvPathExists "key.pem"]
  end.

(** *** Worlds to run the scripts in *)

Definition digit_of (c : ascii) : option Z :=
  let n := nat_of_ascii c in
  if ((48 <=? n) && (n <=? 57))%nat then Some (Z.of_nat n - 48) else None.

Fixpoint digits (s : string) (acc : Z) : option Z :=
  match s with
  | EmptyString => Some acc
  | String c s' =>
      match digit_of c with
      | Some d => digits s' (10 * acc + d)
      | None => None
      end
  end.

(** [int] on the strings made of an optional sign and ASCII digits, with
    white space around them; the other strings are refused. *)
Definition int_plain (s : string) : option Z :=
  match Str.strip s with
  | EmptyString => None
  | String "-" EmptyString => None
  | String "+" EmptyString => None
  | String "-" r => option_map Z.opp (digits r 0)
  | String "+" r => digits r 0
  | r => digits r 0
  end.

(** A machine where nothing listens on the port ([lsof] finds nothing and
    ends with status 1), both certificate files are there and load, and
    the operator stops the server with an interrupt. *)
Definition calm (args : list string) : World :=
  {| argv := args;
     int_ := int_plain;
     getcwd := "/srv";
     path_exists := fun _ _ => true;
     subprocess_run := fun _ _ => Return {| returncode := 1; stdout := "" |};
     os_kill := fun _ _ _ => Return tt;
     server_bind := fun _ _ _ => Return tt;
     load_cert_chain := fun _ _ _ => Return tt;
     wrap_socket := fun _ => Return tt;
     serve_forever := fun _ => Raise KeyboardInterrupt |}.

(** The same machine without [key.pem]. *)
Definition no_key (args : list string) : World :=
  {| argv := args;
     int_ := int_plain;
     getcwd := "/srv";
     path_exists := fun _ p => negb (String.eqb p "key.pem");
     subprocess_run := subprocess_run (calm args);
     os_kill := os_kill (calm args);
     server_bind := server_bind (calm args);
     load_cert_chain := load_cert_chain (calm args);
     wrap_socket := wrap_socket (calm args);
     serve_forever := serve_forever (calm args) |}.

(** The same machine with certificate files that do not load. *)
Definition bad_cert (args : list string) : World :=
  {| argv := args;
     int_ := int_plain;
     getcwd := "/srv";
     path_exists := path_exists (calm args);
     subprocess_run := subprocess_run (calm args);
     os_kill := os_kill (calm args);
     server_bind := server_bind (calm args);
     load_cert_chain := fun _ _ _ => Raise SSLError;
     wrap_socket := wrap_socket (calm args);
     serve_forever := serve_forever (calm args) |}.

(** A machine without [lsof] and without [fuser]. *)
Definition bare (args : list string) : World :=
  {| argv := args;
     int_ := int_plain;
     getcwd := "/srv";
     path_exists := path_exists (calm args);
     subprocess_run := fun _ _ => Raise FileNotFoundError;
     os_kill := os_kill (calm args);
     server_bind := server_bind (calm args);
     load_cert_chain := load_cert_chain (calm args);
     wrap_socket := wrap_socket (calm args);
     serve_forever := serve_forever (calm args) |}.

(** A machine where [lsof] finds the processes 4711 and 4712 on the port
    and the second cannot be signalled. *)
Definition busy (args : list string) : World :=
  {| argv := args;
     int_ := int_plain;
     getcwd := "/srv";
     path_exists := path_exists (calm args);
     subprocess_run := fun _ cmd =>
       match cmd with
       | "lsof" :: _ =>
           Return {| returncode := 0; stdout := "4711" ++ nl ++ "4712" ++ nl |}
       | _ => Return {| returncode := 0; stdout := "" |}
       end;
     os_kill := fun _ pid _ =>
       if pid =? 4712 then Raise PermissionError else Return tt;
     server_bind := server_bind (calm args);
     load_cert_chain := load_cert_chain (calm args);
     wrap_socket := wrap_socket (calm args);
     serve_forever := serve_forever (calm args) |}.

(** *** More to read in a trace, more worlds *)

Definition is_close (ev : event) : bool :=
  match ev with EvServerClose => true | _ => false end.

(** The message and the signal of the reclaimer for one process. *)
Definition signalling (port : Z) (pid : string) (n : Z) : list event :=
  [ EvPrint ("Killing existing process " ++ pid ++ " on port " ++ Str.of_Z port);
    EvKill n SIGTERM ].

(** The same for the lines [pids] of the lookup, [nums] being their
    numbers. *)
Fixpoint signalled (port : Z) (pids : list string) (nums : list Z) : list event :=
  match pids, nums with
  | pid :: pids', n :: nums' => (signalling port pid n ++ signalled port pids' nums')%list
  | _, _ => []
  end.

(** The lookup on [port], made at history [h], ends with status zero and
    prints the lines [pids]. *)
Definition lookup_finds (w : World) (h : list event) (port : Z)
           (pids : list string) : Prop :=
  exists result,
    subprocess_run w h (lsof_command port) = Return result
    /\ returncode result = 0
    /\ Str.strip (stdout result) <> EmptyString
    /\ Str.split "010" (Str.strip (stdout result)) = pids.

(** What the reclaimer of [port] may do: print, run its two commands on
    that port, send [SIGTERM]. *)
Definition reclaim_step (port : Z) (ev : event) : Prop :=
  match ev with
  | EvPrint _ => True
  | EvRun cmd => cmd = lsof_command port \/ cmd = fuser_command port
  | EvKill _ sig => sig = SIGTERM
  | _ => False
  end.

(** A machine where [lsof] prints a warning between two process
    identifiers. *)
Definition garbled (args : list string) : World :=
  {| argv := args;
     int_ := int_plain;
     getcwd := "/srv";
     path_exists := path_exists (calm args);
     subprocess_run := fun _ cmd =>
       match cmd with
       | "lsof" :: _ =>
           Return {| returncode := 0;
                     stdout := "4711" ++ nl ++ "lsof: WARNING" ++ nl ++ "4712" ++ nl |}
       | _ => Return {| returncode := 0; stdout := "" |}
       end;
     os_kill := os_kill (calm args);
     server_bind := server_bind (calm args);
     load_cert_chain := load_cert_chain (calm args);
     wrap_socket := wrap_socket (calm args);
     serve_forever := serve_forever (calm args) |}.

(** A machine where [lsof] finds the processes 4711 and 4712 on the port
    and both can be signalled. *)
Definition crowded (args : list string) : World :=
  {| argv := args;
     int_ := int_plain;
     getcwd := "/srv";
     path_exists := path_exists (calm args);
     subprocess_run := subprocess_run (busy args);
     os_kill := os_kill (calm args);
     server_bind := server_bind (calm args);
     load_cert_chain := load_cert_chain (calm args);
     wrap_socket := wrap_socket (calm args);
     serve_forever := serve_forever (calm args) |}.

(** A machine where the operator interrupts the lookup. *)
Definition interrupted (args : list string) : World :=
  {| argv := args;
     int_ := int_plain;
     getcwd := "/srv";
     path_exists := path_exists (calm args);
     subprocess_run := fun _ _ => Raise KeyboardInterrupt;
     os_kill := os_kill (calm args);
     server_bind := server_bind (calm args);
     load_cert_chain := load_cert_chain (calm args);
     wrap_socket := wrap_socket (calm args);
     serve_forever := serve_forever (calm args) |}.

(** A machine where the port cannot be bound. *)
Definition occupied (args : list string) : World :=
  {| argv := args;
     int_ := int_plain;
     getcwd := "/srv";
     path_exists := path_exists (calm args);
     subprocess_run := subprocess_run (calm args);
     os_kill := os_kill (calm args);
     server_bind := fun _ _ _ => Raise OSError;
     load_cert_chain := load_cert_chain (calm args);
     wrap_socket := wrap_socket (calm args);
     serve_forever := serve_forever (calm args) |}.

(** A machine where [serve_forever] ends with an error of the system. *)
Definition failing (args : list string) : World :=
  {| argv := args;
     int_ := int_plain;
     getcwd := "/srv";
     path_exists := path_exists (calm args);
     subprocess_run := subprocess_run (calm args);
     os_kill := os_kill (calm args);
     server_bind := server_bind (calm args);
     load_cert_chain := load_cert_chain (calm args);
     wrap_socket := wrap_socket (calm args);
     serve_forever := fun _ => Raise OSError |}.

End Script.

(** * Properties *)

(** ** Strings *)

Lemma lower_char_ascii (c : ascii) :
  Str.is_ascii_char (Str.lower_char c) = Str.is_ascii_char c.
Proof.
  destruct c as [[] [] [] [] [] [] [] []]; reflexivity.
Qed.

Lemma lower_ascii_isascii (s : string) :
  Str.isascii (Str.lower_ascii s) = Str.isascii s.
Proof.
  induction s as [|c s IH]; simpl; [reflexivity|].
  now rewrite lower_char_ascii, IH.
Qed.

Lemma length_append (a b : string) :
  String.length (a ++ b) = (String.length a + String.length b)%nat.
Proof. induction a as [|c a IH]; simpl; [reflexivity | now rewrite IH]. Qed.

Lemma append_assoc (a b c : string) : (a ++ b) ++ c = a ++ b ++ c.
Proof. induction a as [|x a IH]; simpl; [reflexivity | now rewrite IH]. Qed.

Lemma take_append (a b : string) : Str.take (String.length a) (a ++ b) = a.
Proof. induction a as [|c a IH]; simpl; [now destruct b | now rewrite IH]. Qed.

Lemma drop_append (a b : string) : Str.drop (String.length a) (a ++ b) = b.
Proof. induction a as [|c a IH]; simpl; [reflexivity | exact IH]. Qed.

Lemma char_at_append (a : string) (c : ascii) (b : string) :
  Str.char_at (a ++ String c b) (Z.of_nat (String.length a)) = String c EmptyString.
Proof.
  unfold Str.char_at.
  destruct (Z.of_nat (String.length a) <? 0) eqn:N; [apply Z.ltb_lt in N; lia|].
  rewrite Nat2Z.id, drop_append. simpl. now destruct b.
Qed.

(** [rfind] over a concatenation goes on in the second part from what it
    found in the first. *)
Lemma rfind_from_append (c : ascii) (a b : string) (i last : Z) :
  Str.rfind_from c (a ++ b) i last
  = Str.rfind_from c b (i + Z.of_nat (String.length a)) (Str.rfind_from c a i last).
Proof.
  revert i last. induction a as [|x a IH]; intros i last.
  - simpl. now rewrite Z.add_0_r.
  - cbn [append Str.rfind_from String.length]. rewrite IH.
    f_equal. lia.
Qed.

Lemma rfind_from_absent (c : ascii) (s : string) (i last : Z) :
  Str.has_char c s = false -> Str.rfind_from c s i last = last.
Proof.
  revert i last. induction s as [|a s IH]; intros i last; simpl; [reflexivity|].
  rewrite orb_false_iff. intros [H1 H2]. now rewrite H1, IH.
Qed.

Lemma rfind_from_lower_bound (c : ascii) (s : string) (i last : Z) :
  last <= i -> last <= Str.rfind_from c s i last.
Proof.
  revert i last. induction s as [|a s IH]; intros i last L; simpl; [lia|].
  destruct (Ascii.eqb a c).
  - transitivity i; [exact L | apply IH; lia].
  - apply IH. lia.
Qed.

Lemma has_char_lower (c : ascii) (s : string) :
  Str.lower_char c = c ->
  Str.has_char c (Str.lower_ascii s) = false -> Str.has_char c s = false.
Proof.
  intros C. induction s as [|a s IH]; simpl; [reflexivity|].
  rewrite !orb_false_iff. intros [H1 H2]. split; [|now apply IH].
  destruct (Ascii.eqb a c) eqn:E; [|reflexivity].
  apply Ascii.eqb_eq in E. subst a. rewrite C, Ascii.eqb_refl in H1.
  discriminate.
Qed.

(** ** The resolver *)

Section ResolverFacts.

Import Resolver.

Variable unicode_lower : string -> string.

Lemma contains_In (d : list (string * string)) (k : string) :
  contains d k = true <-> In k (map fst d).
Proof.
  induction d as [|[k' v] d IH]; simpl.
  - split; [discriminate | tauto].
  - rewrite orb_true_iff, IH, String.eqb_eq. intuition congruence.
Qed.

Lemma getitem_contains (d : list (string * string)) (k : string) :
  contains d k = true -> exists v, getitem d k = Return v /\ In (k, v) d.
Proof.
  induction d as [|[k' v] d IH]; simpl; [discriminate|].
  destruct (String.eqb k k') eqn:E; simpl.
  - intros _. apply String.eqb_eq in E. subst. eauto.
  - intros H. destruct (IH H) as (v' & G & I). eauto.
Qed.

Lemma getitem_absent (d : list (string * string)) (k : string) :
  contains d k = false -> getitem d k = Raise KeyError.
Proof.
  induction d as [|[k' v] d IH]; simpl; [reflexivity|].
  destruct (String.eqb k k'); simpl; [discriminate | exact IH].
Qed.

(** Every key of the table is in lower case, so the second lookup is
    the one without regard to case. *)
Lemma keys_lower_case (k : string) :
  In k (map fst extensions_map) -> Str.lower_ascii k = k.
Proof.
  simpl. intros H.
  repeat (destruct H as [H|H]; [subst k; reflexivity|]). contradiction.
Qed.

Lemma keys_ascii (k : string) :
  In k (map fst extensions_map) -> Str.isascii k = true.
Proof.
  simpl. intros H.
  repeat (destruct H as [H|H]; [subst k; reflexivity|]). contradiction.
Qed.

(** No key occurs twice: an entry of the table is what [getitem] finds. *)
Lemma getitem_entry (k v : string) :
  In (k, v) extensions_map -> getitem extensions_map k = Return v.
Proof.
  simpl. intros H.
  repeat (destruct H as [H|H]; [inversion H; subst; reflexivity|]).
  contradiction.
Qed.

Lemma guess_type_by_ext (path : string) :
  guess_type unicode_lower path =
    let ext := snd (splitext path) in
    if contains extensions_map ext then getitem extensions_map ext
    else if contains extensions_map (lower unicode_lower ext)
         then getitem extensions_map (lower unicode_lower ext)
         else getitem extensions_map "".
Proof.
  unfold guess_type. destruct (splitext path) as [base ext]. reflexivity.
Qed.

(** The loop over the leading dots of the file name finds a character
    other than the dot exactly when the name is not made of dots. *)
Lemma skip_leading_dots_name (dir name rest : string) :
  skip_leading_dots (dir ++ name ++ rest) (Z.of_nat (String.length dir))
    (String.length name)
  = negb (Str.only_dots name).
Proof.
  revert dir. induction name as [|c name IH]; intros dir; [reflexivity|].
  cbn [String.length skip_leading_dots Str.only_dots append].
  rewrite char_at_append.
  replace (String c EmptyString =? ".")%string with (Ascii.eqb c ".")
    by (simpl; now destruct (Ascii.eqb c ".")).
  destruct (Ascii.eqb c ".") eqn:D; simpl; [|reflexivity].
  specialize (IH (dir ++ String c EmptyString)).
  rewrite length_append in IH. simpl in IH.
  rewrite append_assoc in IH. simpl in IH.
  replace (Z.of_nat (String.length dir) + 1)
    with (Z.of_nat (String.length dir + 1)) by lia.
  exact IH.
Qed.

(** A path that ends in a file name, a dot and a suffix without dot or
    slash splits before that dot, unless the name is made of dots (or is
    empty): [dir] is empty or ends with the slash. *)
Lemma splitext_suffix (dir name suffix : string) :
  dir = "" \/ (exists d, dir = d ++ "/") ->
  Str.has_char "/" name = false ->
  Str.only_dots name = false ->
  Str.has_char "/" suffix = false ->
  Str.has_char "." suffix = false ->
  splitext (dir ++ name ++ "." ++ suffix) = (dir ++ name, "." ++ suffix).
Proof.
  intros Dir Name Dots S1 S2. unfold splitext.
  assert (Sep : Str.rfind "/" (dir ++ name ++ "." ++ suffix)
                = Z.of_nat (String.length dir) - 1).
  { unfold Str.rfind. rewrite rfind_from_append.
    rewrite (rfind_from_absent "/" (name ++ "." ++ suffix)).
    - destruct Dir as [->|(d & ->)]; [reflexivity|].
      rewrite rfind_from_append, length_append. simpl. lia.
    - clear - Name S1. induction name as [|c name IH]; simpl in *.
      + exact S1.
      + apply orb_false_iff in Name as [N1 N2]. now rewrite N1, IH. }
  assert (Dot : Str.rfind "." (dir ++ name ++ "." ++ suffix)
                = Z.of_nat (String.length (dir ++ name))).
  { unfold Str.rfind. rewrite <- append_assoc, rfind_from_append.
    cbn [append Str.rfind_from]. rewrite Ascii.eqb_refl.
    rewrite (rfind_from_absent "." suffix) by exact S2. lia. }
  rewrite Sep, Dot.
  replace (Z.of_nat (String.length dir) - 1 + 1)
    with (Z.of_nat (String.length dir)) by lia.
  replace (Z.to_nat (Z.of_nat (String.length (dir ++ name))
                     - Z.of_nat (String.length dir)))
    with (String.length name) by (rewrite length_append; lia).
  rewrite skip_leading_dots_name, Dots.
  replace (Z.of_nat (String.length dir) - 1
           <? Z.of_nat (String.length (dir ++ name))) with true
    by (symmetry; apply Z.ltb_lt; rewrite length_append; lia).
  cbn [andb negb]. rewrite Nat2Z.id, <- append_assoc.
  now rewrite take_append, drop_append.
Qed.

(** A path without a dot has no extension. *)
Lemma splitext_no_dot (path : string) :
  Str.has_char "." path = false -> splitext path = (path, "").
Proof.
  intros H. unfold splitext, Str.rfind.
  rewrite (rfind_from_absent "." path) by exact H.
  pose proof (rfind_from_lower_bound "/" path 0 (-1)) as L.
  destruct (Str.rfind_from "/" path 0 (-1) <? -1) eqn:T; [|reflexivity].
  apply Z.ltb_lt in T. lia.
Qed.

(** The two lookups of the specification are the two dict lookups of the
    code, the second one because every key is in lower case. *)
Lemma find_getitem (d : list (string * string)) (k : string) :
  option_map snd (find (fun entry => String.eqb (fst entry) k) d)
  = match getitem d k with
    | Return v => Some v
    | Raise _ => None
    end.
Proof.
  induction d as [|[k' v] d IH]; simpl; [reflexivity|].
  rewrite (String.eqb_sym k' k). destruct (String.eqb k k'); [reflexivity|exact IH].
Qed.

Lemma lookup_case_insensitive_lower (k : string) :
  lookup_case_insensitive unicode_lower k
  = match getitem extensions_map (lower unicode_lower k) with
    | Return v => Some v
    | Raise _ => None
    end.
Proof.
  rewrite <- find_getitem. unfold lookup_case_insensitive.
  (* on each key of the table [lower] computes, and gives the key back *)
  reflexivity.
Qed.

(** [guess_type] is total and computes what the specification words. *)
Lemma guess_type_refines (path : string) :
  guess_type unicode_lower path = Return (resolve_spec unicode_lower path).
Proof.
  rewrite guess_type_by_ext. unfold resolve_spec, lookup_case_sensitive. cbv zeta.
  set (ext := snd (splitext path)).
  rewrite find_getitem, lookup_case_insensitive_lower.
  destruct (contains extensions_map ext) eqn:C1.
  - destruct (getitem_contains _ _ C1) as (v & G & _). now rewrite G.
  - rewrite (getitem_absent _ _ C1).
    destruct (contains extensions_map (lower unicode_lower ext)) eqn:C2.
    + destruct (getitem_contains _ _ C2) as (v & G & _). now rewrite G.
    + rewrite (getitem_absent _ _ C2). reflexivity.
Qed.

(** An extension that is a key of the table up to case resolves to the
    type of that key. *)
Lemma guess_type_ignores_case (path key mime : string) :
  In (key, mime) extensions_map ->
  eq_ignore_case (snd (splitext path)) key = true ->
  guess_type unicode_lower path = Return mime.
Proof.
  intros Hin Heq. rewrite guess_type_by_ext. cbv zeta.
  set (ext := snd (splitext path)) in *.
  assert (Hkey : In key (map fst extensions_map))
    by (apply (in_map fst) in Hin; exact Hin).
  unfold eq_ignore_case in Heq. apply String.eqb_eq in Heq.
  rewrite (keys_lower_case key Hkey) in Heq.
  assert (Hlow : lower unicode_lower ext = key).
  { unfold lower. rewrite <- lower_ascii_isascii, Heq.
    now rewrite (keys_ascii key Hkey). }
  destruct (contains extensions_map ext) eqn:C1.
  - apply contains_In in C1.
    rewrite (keys_lower_case ext C1) in Heq. subst key.
    now apply getitem_entry.
  - rewrite Hlow.
    assert (C2 : contains extensions_map key = true) by now apply contains_In.
    rewrite C2. now apply getitem_entry.
Qed.

(** The same on the text of the path: a file name that is not made of
    dots, followed by [.js] or [.mjs] in any case, in any directory. *)
Lemma guess_type_javascript_suffix (dir name suffix : string) :
  dir = "" \/ (exists d, dir = d ++ "/") ->
  Str.has_char "/" name = false ->
  Str.only_dots name = false ->
  Str.lower_ascii suffix = "js" \/ Str.lower_ascii suffix = "mjs" ->
  guess_type unicode_lower (dir ++ name ++ "." ++ suffix)
  = Return "application/javascript".
Proof.
  intros Dir Name Dots Suffix.
  assert (S1 : Str.has_char "/" suffix = false)
    by (apply has_char_lower; [reflexivity|]; destruct Suffix as [->| ->]; reflexivity).
  assert (S2 : Str.has_char "." suffix = false)
    by (apply has_char_lower; [reflexivity|]; destruct Suffix as [->| ->]; reflexivity).
  pose proof (splitext_suffix dir name suffix Dir Name Dots S1 S2) as E.
  destruct Suffix as [L|L].
  - apply guess_type_ignores_case with (key := ".js"); [simpl; tauto|].
    rewrite E. unfold eq_ignore_case. cbn [snd]. simpl. now rewrite L.
  - apply guess_type_ignores_case with (key := ".mjs"); [simpl; tauto|].
    rewrite E. unfold eq_ignore_case. cbn [snd]. simpl. now rewrite L.
Qed.

(** A path without a dot resolves to the fallback type. *)
Lemma guess_type_no_dot (path : string) :
  Str.has_char "." path = false ->
  guess_type unicode_lower path = Return "application/octet-stream".
Proof.
  intros H. rewrite guess_type_by_ext, (splitext_no_dot path H). reflexivity.
Qed.

End ResolverFacts.



(** C4: resolution never raises and is the fallback chain of the
    specification (the extension as it is, then in lower case, then
    [application/octet-stream]); with no extension it is
    [application/octet-stream]. *)
Theorem guess_type_total_fallback (unicode_lower : string -> string) (path : string) :
  Resolver.guess_type unicode_lower path
  = Return (Resolver.resolve_spec unicode_lower path)
  /\ (snd (Resolver.splitext path) = ""
      -> Resolver.guess_type unicode_lower path = Return "application/octet-stream").
Proof.
  split.
  - apply guess_type_refines.
  - intros H. rewrite guess_type_by_ext. cbv zeta. rewrite H. reflexivity.
Qed.

Lemma guess_type_total_fallback_witness :
  Resolver.guess_type (fun s => s) "/srv/Makefile"
  = Return "application/octet-stream".
Proof.
  apply (proj2 (guess_type_total_fallback (fun s => s) "/srv/Makefile")).
  reflexivity.
Defined.

(** ** The header policy *)

Section HandlerFacts.

Import Handler.













End HandlerFacts.




(** ** The scripts *)

Section ScriptFacts.

Import Script.
Local Open Scope script_scope.

Variable w : World.

Lemma extend_nil (s : proc) : extend s [] = s.
Proof. destruct s. unfold extend. simpl. now rewrite app_nil_r. Qed.

Lemma extend_extend (s : proc) (a b : list event) :
  extend (extend s a) b = extend s (a ++ b).
Proof. unfold extend. simpl. now rewrite app_assoc. Qed.

Lemma log_extend (ev : event) (s : proc) : log ev s = extend s [ev].
Proof. reflexivity. Qed.

Lemma reclaim_event_not_bind (tr : list event) :
  forallb reclaim_event tr = true -> existsb is_bind tr = false.
Proof.
  induction tr as [|ev tr IH]; simpl; [reflexivity|].
  rewrite andb_true_iff. intros [H1 H2]. rewrite (IH H2).
  destruct ev; simpl in *; congruence.
Qed.

Lemma reclaim_event_not_serve (tr : list event) :
  forallb reclaim_event tr = true -> existsb is_serve tr = false.
Proof.
  induction tr as [|ev tr IH]; simpl; [reflexivity|].
  rewrite andb_true_iff. intros [H1 H2]. rewrite (IH H2).
  destruct ev; simpl in *; congruence.
Qed.

(** The loop over the process identifiers: it prints and signals, and the
    only exceptions that leave it are the [ValueError] of [int] and what
    [os.kill] raises. *)
Lemma kill_loop_spec (port : Z) (pids : list string) (s : proc) :
  exists tr r,
    for_each pids (fun pid =>
      print ("Killing existing process " ++ pid ++ " on port " ++ Str.of_Z port) ;;
      n <- int w pid ;;
      kill w n SIGTERM) s = (extend s tr, r)
    /\ forallb reclaim_event tr = true
    /\ (r = Return tt
        \/ r = Raise ValueError
        \/ exists h pid sig, os_kill w h pid sig = r /\ r <> Return tt).
Proof.
  revert s. induction pids as [|pid pids IH]; intros s.
  - exists [], (Return tt). simpl. unfold ret. rewrite extend_nil. auto.
  - cbn [for_each]. unfold bind at 1. unfold bind at 1.
    unfold print at 1, call at 1. rewrite log_extend.
    unfold bind at 1. unfold int at 1.
    destruct (int_ w pid) as [n|].
    + unfold ret at 1. unfold kill at 1, call at 1. rewrite log_extend.
      rewrite extend_extend.
      destruct (os_kill w _ n SIGTERM) as [e|[]] eqn:K.
      * eexists _, _. split; [reflexivity|]. split; [reflexivity|].
        right. right. eexists _, _, _. split; [exact K|discriminate].
      * destruct (IH (extend s ([EvPrint ("Killing existing process " ++ pid
                    ++ " on port " ++ Str.of_Z port)] ++ [EvKill n SIGTERM])))
          as (tr & r & E & F & R).
        rewrite E, extend_extend. eexists _, _. split; [reflexivity|].
        split; [|exact R]. simpl. exact F.
    + unfold raise. eexists _, _. split; [reflexivity|].
      split; [reflexivity|]. auto.
Qed.

(** The port reclaimer: it begins with the lookup, it does nothing but
    print, run its two commands and signal, it runs the second command when
    an [Exception] left the first part, and what leaves it, if anything, is
    an exception of the lookup or of a signal that is no [Exception]. *)
Lemma kill_process_on_port_spec (port : Z) (s : proc) :
  exists tr r,
    kill_process_on_port w port s
    = (extend s (EvRun (lsof_command port) :: tr), r)
    /\ forallb reclaim_event tr = true
    /\ (forall e, subprocess_run w (trace s) (lsof_command port) = Raise e ->
        is_Exception e = true -> tr = [EvRun (fuser_command port)])
    /\ (r = Return tt
        \/ exists e, r = Raise e /\ is_Exception e = false
             /\ (subprocess_run w (trace s) (lsof_command port) = Raise e
                 \/ exists h pid sig, os_kill w h pid sig = Raise e)).
Proof.
  assert (Fuser : forall s0,
    try_except (run_command w (fuser_command port) ;; ret tt)
      any_exception (ret tt) s0
    = (extend s0 [EvRun (fuser_command port)], Return tt)).
  { intros s0. unfold try_except, bind, run_command, call.
    rewrite log_extend.
    destruct (subprocess_run w (trace s0) (fuser_command port)); reflexivity. }
  unfold kill_process_on_port. unfold try_except at 1.
  unfold bind at 1. unfold run_command at 1, call at 1. rewrite log_extend.
  destruct (subprocess_run w (trace s) (lsof_command port)) as [e|result] eqn:L.
  - destruct (is_Exception e) eqn:X.
    + rewrite Fuser, extend_extend. eexists _, _.
      split; [reflexivity|]. split; [reflexivity|]. split; [auto|]. now left.
    + exists [], (Raise e). split; [reflexivity|]. split; [reflexivity|].
      split; [intros e' H; inversion H; congruence|].
      right. exists e. auto.
  - destruct ((returncode result =? 0) && truthy (Str.strip (stdout result))).
    + destruct (kill_loop_spec port
                  (Str.split "010" (Str.strip (stdout result)))
                  (extend s [EvRun (lsof_command port)]))
        as (tr & r & E & F & R).
      rewrite E, extend_extend.
      destruct r as [e|[]].
      * destruct (is_Exception e) eqn:X.
        -- rewrite Fuser, extend_extend. eexists _, _.
           split; [reflexivity|]. split.
           ++ rewrite forallb_app, F. reflexivity.
           ++ split; [intros e' H; discriminate|]. now left.
        -- eexists _, _. split; [reflexivity|]. split; [exact F|].
           split; [intros e' H; discriminate|].
           right. exists e. split; [reflexivity|]. split; [exact X|].
           right. destruct R as [R|[R|(h & pid & sig & R & _)]].
           ++ discriminate.
           ++ inversion R; subst. discriminate.
           ++ eauto.
      * eexists _, _. split; [reflexivity|]. split; [exact F|].
        split; [intros e' H; discriminate|]. now left.
    + unfold ret. exists [], (Return tt). split; [reflexivity|].
      split; [reflexivity|]. split; [intros e' H; discriminate|]. now left.
Qed.

(** A lookup that runs and ends with another status than zero, or prints
    nothing, is taken for a free port: no signal is sent and the second
    command is not run. *)
Lemma kill_process_on_port_nothing_found
      (port : Z) (s : proc) (result : CompletedProcess) :
  subprocess_run w (trace s) (lsof_command port) = Return result ->
  returncode result <> 0 \/ Str.strip (stdout result) = "" ->
  kill_process_on_port w port s
  = (extend s [EvRun (lsof_command port)], Return tt).
Proof.
  intros L N. unfold kill_process_on_port, try_except, bind, run_command, call.
  rewrite L, log_extend.
  assert (T : (returncode result =? 0) && truthy (Str.strip (stdout result))
              = false).
  { destruct N as [N|N].
    - apply Z.eqb_neq in N. now rewrite N.
    - rewrite N. apply andb_false_r. }
  now rewrite T.
Qed.

(** Under ordinary failures the reclaimer returns. *)
Lemma kill_process_on_port_returns (port : Z) (s : proc) :
  ordinary_failures w ->
  exists tr,
    kill_process_on_port w port s
    = (extend s (EvRun (lsof_command port) :: tr), Return tt)
    /\ forallb reclaim_event tr = true
    /\ (forall e, subprocess_run w (trace s) (lsof_command port) = Raise e ->
        tr = [EvRun (fuser_command port)]).
Proof.
  intros [O1 O2].
  destruct (kill_process_on_port_spec port s) as (tr & r & E & F & U & R).
  exists tr. destruct R as [->|(e & -> & X & [L|(h & pid & sig & K)])].
  - split; [exact E|]. split; [exact F|].
    intros e L. apply (U e L). exact (O1 _ _ _ L).
  - rewrite (O1 _ _ _ L) in X. discriminate.
  - rewrite (O2 _ _ _ _ K) in X. discriminate.
Qed.

(** The body of the [with] statement of the plain variants, from a
    server constructed at [s]. *)
Lemma plain_serving_run (s : proc) :
  (let (s', r) :=
     with_server
       (print ("Server running at http://0.0.0.0:" ++ Str.of_Z PORT ++ "/") ;;
        print ("Access locally: http://localhost:" ++ Str.of_Z PORT ++ "/") ;;
        print "Press Ctrl+C to stop" ;;
        try_except
          (call EvServeForever (serve_forever w))
          is_KeyboardInterrupt
          (print (nl ++ "Server stopped.")))
       (extend s [EvBind PORT true])
   in (trace s', terminate r))
  = plain_serving w (trace s).
Proof.
  unfold plain_serving, plain_banner.
  unfold with_server, bind, print, try_except, call. simpl.
  rewrite <- !app_assoc. simpl.
  destruct (serve_forever w _) as [[]|[]]; simpl;
    rewrite <- ?app_assoc; reflexivity.
Qed.

Lemma server_py_run : run (server_py w) = plain_course w.
Proof.
  unfold run, plain_course, server_py.
  unfold bind at 1.
  destruct (kill_process_on_port w PORT start) as [s [e|[]]]; [reflexivity|].
  unfold bind at 1. unfold set_TCPServer_allow_reuse_address at 1.
  unfold bind at 1. unfold TCPServer at 1, call at 1.
  cbn [TCPServer_allow_reuse_address trace].
  destruct (server_bind w (trace s) PORT true) as [e|[]]; [reflexivity|].
  exact (plain_serving_run
           {| trace := trace s;
              TCPServer_allow_reuse_address := true;
              HTTPServer_allow_reuse_address := HTTPServer_allow_reuse_address s |}).
Qed.

Lemma server2_py_run : run (server2_py w) = plain_course w.
Proof.
  unfold run, plain_course, server2_py.
  unfold bind at 1.
  destruct (kill_process_on_port w PORT start) as [s [e|[]]]; [reflexivity|].
  unfold bind at 1. unfold set_HTTPServer_allow_reuse_address at 1.
  unfold bind at 1. unfold HTTPServer at 1, call at 1.
  cbn [HTTPServer_allow_reuse_address trace].
  destruct (server_bind w (trace s) PORT true) as [e|[]]; [reflexivity|].
  exact (plain_serving_run
           {| trace := trace s;
              TCPServer_allow_reuse_address := TCPServer_allow_reuse_address s;
              HTTPServer_allow_reuse_address := true |}).
Qed.

Lemma https_server_py_run : run (https_server_py w) = https_course w.
Proof.
  unfold run, https_course, https_server_py, https_serving.
  unfold bind at 1. unfold https_PORT, int.
  assert (Go : forall port,
    (let (s, r) :=
       (missing <- material_missing w ;;
        (if missing : bool
         then
           print "Error: cert.pem and key.pem not found!" ;;
           print "Generate them with:" ;;
           print openssl_hint ;;
           sys_exit 1
         else ret tt) ;;
        HTTPServer w port ;;
        call (EvLoadCertChain "cert.pem" "key.pem")
             (fun h => load_cert_chain w h "cert.pem" "key.pem") ;;
        call EvWrapSocket (wrap_socket w) ;;
        print ("🔒 HTTPS server running on https://localhost:" ++ Str.of_Z port ++ "/") ;;
        print ("📁 Serving files from: " ++ getcwd w) ;;
        print "⚠️  Using self-signed certificate - browser will show security warning" ;;
        print "   Accept the warning to continue (this is safe for local development)" ;;
        print (nl ++ "Press Ctrl+C to stop" ++ nl) ;;
        try_except
          (call EvServeForever (serve_forever w))
          is_KeyboardInterrupt
          (print (nl ++ nl ++ "Server stopped.") ;; sys_exit 0)) start
     in (trace s, terminate r))
    = (if negb (path_exists w [] "cert.pem")
       then (EvPathExists "cert.pem" :: map EvPrint diagnostic, Exited 1)
       else if negb (path_exists w [EvPathExists "cert.pem"] "key.pem")
       then (EvPathExists "cert.pem" :: EvPathExists "key.pem"
               :: map EvPrint diagnostic, Exited 1)
       else https_serving w port
              [EvPathExists "cert.pem"; EvPathExists "key.pem"])).
  { intros port. unfold https_serving, material_missing, exists_, HTTPServer,
      bind, call, print, sys_exit, raise, ret, try_except, https_banner.
    simpl.
    destruct (path_exists w [] "cert.pem"); simpl; [|reflexivity].
    destruct (path_exists w [EvPathExists "cert.pem"] "key.pem"); simpl;
      [|reflexivity].
    destruct (server_bind w _ port true) as [e|[]]; simpl; [reflexivity|].
    destruct (load_cert_chain w _ "cert.pem" "key.pem") as [e|[]]; simpl;
      [reflexivity|].
    destruct (wrap_socket w _) as [e|[]]; simpl; [reflexivity|].
    destruct (serve_forever w _) as [[]|[]]; reflexivity. }
  destruct (Z.of_nat (List.length (argv w)) <? 2).
  - unfold ret at 1. apply Go.
  - destruct (int_ w (nth 1 (argv w) "")) as [port|].
    + unfold ret at 1. apply Go.
    + reflexivity.
Qed.

(** *** Where an event stands in a trace *)

Lemma split_unique (P : event -> bool) (a b pre post : list event) (x y : event) :
  (a ++ x :: b = pre ++ y :: post)%list ->
  existsb P a = false -> P x = true -> existsb P b = false -> P y = true ->
  pre = a /\ y = x /\ post = b.
Proof.
  revert pre. induction a as [|a0 a IH]; intros pre E Ha Hx Hb Hy.
  - destruct pre as [|p pre]; simpl in E.
    + inversion E. auto.
    + inversion E; subst. exfalso.
      assert (existsb P (pre ++ y :: post) = true) as C.
      { rewrite existsb_app. simpl. rewrite Hy. now rewrite orb_true_r. }
      congruence.
  - simpl in Ha. apply orb_false_iff in Ha as [Ha0 Ha].
    destruct pre as [|p pre]; simpl in E.
    + inversion E; subst. congruence.
    + inversion E; subst.
      destruct (IH pre H1 Ha Hx Hb Hy) as (-> & -> & ->). auto.
Qed.

Lemma no_split (P : event -> bool) (l pre post : list event) (y : event) :
  l = (pre ++ y :: post)%list -> P y = true -> existsb P l = true.
Proof.
  intros -> Hy. rewrite existsb_app. simpl. rewrite Hy.
  now rewrite orb_true_r.
Qed.

Lemma bound_app (a b : list event) : bound (a ++ b) = (bound a ++ bound b)%list.
Proof.
  induction a as [|ev a IH]; simpl; [reflexivity|].
  destruct ev; simpl; now rewrite ?IH.
Qed.

(** The reclaimer from the start of a script, as the plain variants call
    it. *)
Lemma reclaimed_spec :
  exists tr r,
    kill_process_on_port w PORT start
    = (extend start (EvRun (lsof_command PORT) :: tr), r)
    /\ reclaimed w = EvRun (lsof_command PORT) :: tr
    /\ forallb reclaim_event tr = true.
Proof.
  destruct (kill_process_on_port_spec PORT start) as (tr & r & E & F & _).
  exists tr, r. split; [exact E|]. split; [|exact F].
  unfold reclaimed. rewrite E. reflexivity.
Qed.

(** A plain variant binds once, after the reclaimer has returned, on
    [PORT] and with address reuse. *)
Lemma plain_course_bind (pre post : list event) (port : Z) (reuse : bool) :
  fst (plain_course w) = (pre ++ EvBind port reuse :: post)%list ->
  reuse = true /\ port = PORT /\ pre = reclaimed w
  /\ snd (kill_process_on_port w PORT start) = Return tt.
Proof.
  destruct reclaimed_spec as (tr & r & E & R & F).
  unfold plain_course. rewrite E, R.
  pose proof (reclaim_event_not_bind _ F) as NB.
  cbn [trace extend start app].
  destruct r as [e|[]].
  - intros H. apply (no_split is_bind) in H; [|reflexivity].
    simpl in H. congruence.
  - assert (Fin : forall tail, existsb is_bind tail = false ->
      (EvRun (lsof_command PORT) :: tr ++ EvBind PORT true :: tail
       = pre ++ EvBind port reuse :: post)%list ->
      reuse = true /\ port = PORT /\ pre = EvRun (lsof_command PORT) :: tr
      /\ Return tt = Return tt).
    { intros tail T H.
      apply (split_unique is_bind (EvRun (lsof_command PORT) :: tr) tail) in H;
        try reflexivity; try assumption.
      destruct H as (-> & Hy & _). inversion Hy. auto. }
    destruct (server_bind w _ PORT true) as [e|[]].
    + cbn [fst]. apply Fin. reflexivity.
    + unfold plain_serving.
      destruct (serve_forever w _) as [[]|[]]; cbn [fst];
        rewrite <- app_assoc; apply Fin; reflexivity.
Qed.

(** When the reclaimer returns, a plain variant goes on to bind. *)
Lemma plain_course_reaches_bind :
  snd (kill_process_on_port w PORT start) = Return tt ->
  exists post,
    fst (plain_course w) = (reclaimed w ++ EvBind PORT true :: post)%list.
Proof.
  unfold plain_course, reclaimed.
  destruct (kill_process_on_port w PORT start) as [s [e|[]]]; cbn [snd fst];
    [discriminate|]. intros _.
  destruct (server_bind w _ PORT true) as [e|[]].
  - exists []. reflexivity.
  - unfold plain_serving.
    destruct (serve_forever w _) as [[]|[]]; cbn [fst];
      rewrite <- app_assoc; eexists; reflexivity.
Qed.

(** The interrupt of a plain variant: once [serve_forever] has been
    entered and is interrupted, the message is printed, the server is
    closed and the script comes to its end. *)
Lemma plain_course_interrupt (pre post : list event) :
  fst (plain_course w) = (pre ++ EvServeForever :: post)%list ->
  serve_forever w pre = Raise KeyboardInterrupt ->
  snd (plain_course w) = Exited 0 /\ post = shutdown ServerPy.
Proof.
  destruct reclaimed_spec as (tr & r & E & R & F).
  unfold plain_course. rewrite E.
  pose proof (reclaim_event_not_serve _ F) as NS.
  cbn [trace extend start app].
  destruct r as [e|[]].
  - intros H. apply (no_split is_serve) in H; [|reflexivity].
    simpl in H. congruence.
  - destruct (server_bind w _ PORT true) as [e|[]].
    + cbn [fst]. intros H. apply (no_split is_serve) in H; [|reflexivity].
      simpl in H. rewrite existsb_app, NS in H. discriminate.
    + unfold plain_serving.
      assert (NS' : existsb is_serve
                ((EvRun (lsof_command PORT) :: tr)
                 ++ EvBind PORT true :: plain_banner) = false).
      { rewrite existsb_app. simpl. now rewrite NS. }
      destruct (serve_forever w _) as [[]|[]] eqn:S; cbn [fst snd]; intros H K;
        apply (split_unique is_serve) in H; try reflexivity; try exact NS';
        destruct H as (-> & _ & ->); rewrite S in K; try discriminate.
      split; reflexivity.
Qed.

(** The courses of [https-server.py], one by one. *)
Ltac locate H :=
  lazymatch type of H with
  | [] = (?pre ++ _ :: _)%list => destruct pre; discriminate H
  | (_ :: _) = (?pre ++ _ :: _)%list =>
      let p := fresh "p" in
      let pre' := fresh "pre" in
      let Hp := fresh "Hp" in
      destruct pre as [|p pre']; cbn [app] in H;
      [ try discriminate H
      | injection H as Hp H; try subst p; locate H ]
  end.

Ltac https_cases H :=
  unfold https_course, https_serving, https_banner, diagnostic in *;
  destruct (if (Z.of_nat (List.length (argv w)) <? 2) then Some 8443
            else int_ w (nth 1 (argv w) EmptyString)) as [number|] eqn:Port;
  [ destruct (path_exists w [] "cert.pem") eqn:Cert; cbn [negb] in *;
    [ destruct (path_exists w [EvPathExists "cert.pem"] "key.pem") eqn:Key;
      cbn [negb] in *;
      [ destruct (server_bind w _ number true) as [?e|[]] eqn:Bind;
        [ | destruct (load_cert_chain w _ "cert.pem" "key.pem") as [?e|[]] eqn:Load;
            [ | destruct (wrap_socket w _) as [?e|[]] eqn:Wrap;
                [ | destruct (serve_forever w _) as [[]|[]] eqn:Serve ] ] ]
      | ]
    | ]
  | ];
  cbn [fst snd app map] in *.

Lemma https_course_interrupt (pre post : list event) :
  fst (https_course w) = (pre ++ EvServeForever :: post)%list ->
  serve_forever w pre = Raise KeyboardInterrupt ->
  snd (https_course w) = Exited 0 /\ post = shutdown HttpsServerPy.
Proof.
  intros H K. https_cases H; locate H; injection H as <-;
    pose proof (eq_trans (eq_sym Serve) K) as C; try discriminate C.
  split; reflexivity.
Qed.

Lemma https_course_load (pre post : list event) :
  fst (https_course w)
  = (pre ++ EvLoadCertChain "cert.pem" "key.pem" :: post)%list ->
  (exists port before,
      pre = (before ++ [EvBind port true])%list
      /\ server_bind w before port true = Return tt)
  /\ (forall e, load_cert_chain w pre "cert.pem" "key.pem" = Raise e ->
      post = [] /\ snd (https_course w) = terminate (Raise e)).
Proof.
  intros H. https_cases H; locate H; injection H as <-;
    (split;
     [ exists number, [EvPathExists "cert.pem"; EvPathExists "key.pem"];
       split; [reflexivity | exact Bind]
     | intros e' L; pose proof (eq_trans (eq_sym Load) L) as C;
       try discriminate C; injection C as <-; split; reflexivity ]).
Qed.

Lemma https_course_bind (port : Z) (reuse : bool) :
  In (port, reuse) (bound (fst (https_course w))) ->
  reuse = true
  /\ match port_argument (argv w) with
     | None => port = 8443
     | Some a => int_ w a = Some port
     end.
Proof.
  assert (Arg : forall number,
    (if (Z.of_nat (List.length (argv w)) <? 2) then Some 8443
     else int_ w (nth 1 (argv w) EmptyString)) = Some number ->
    match port_argument (argv w) with
    | None => number = 8443
    | Some a => int_ w a = Some number
    end).
  { intros number.
    destruct (Z.of_nat (List.length (argv w)) <? 2) eqn:T.
    - apply Z.ltb_lt in T.
      destruct (argv w) as [|a0 [|a1 rest]];
        cbn [List.length nth port_argument] in *; try congruence; lia.
    - apply Z.ltb_ge in T.
      destruct (argv w) as [|a0 [|a1 rest]];
        cbn [List.length nth port_argument] in *; try lia; auto. }
  intros H. https_cases H; simpl in H;
    repeat (destruct H as [H|H]; [injection H as <- <-|]);
    try contradiction; (split; [reflexivity | now apply Arg]).
Qed.

Lemma bound_In_split (l : list event) (port : Z) (reuse : bool) :
  In (port, reuse) (bound l) ->
  exists pre post, l = (pre ++ EvBind port reuse :: post)%list.
Proof.
  induction l as [|ev l IH]; simpl; [contradiction|].
  assert (Next : In (port, reuse) (bound l) ->
            exists pre post, ev :: l = (pre ++ EvBind port reuse :: post)%list).
  { intros H. destruct (IH H) as (pre & post & ->).
    now exists (ev :: pre), post. }
  destruct ev; try exact Next.
  intros [H|H]; [|now apply Next].
  injection H as -> ->. now exists [], l.
Qed.

Lemma bound_split (pre post : list event) (port : Z) (reuse : bool) :
  In (port, reuse) (bound (pre ++ EvBind port reuse :: post)).
Proof.
  rewrite bound_app. apply in_or_app. right. simpl. now left.
Qed.

(** The port [https-server.py] settles on, by its argument. *)
Lemma https_port_choice (args : list string) :
  (if (Z.of_nat (List.length args) <? 2) then Some 8443
   else int_ w (nth 1 args EmptyString))
  = match port_argument args with
    | None => Some 8443
    | Some a => int_ w a
    end.
Proof.
  destruct (Z.of_nat (List.length args) <? 2) eqn:T.
  - apply Z.ltb_lt in T.
    destruct args as [|a0 [|a1 rest]];
      cbn [List.length nth port_argument] in *; try reflexivity; lia.
  - apply Z.ltb_ge in T.
    destruct args as [|a0 [|a1 rest]];
      cbn [List.length nth port_argument] in *; try reflexivity; lia.
Qed.

(** Without the certificate or the key, [https-server.py] ends before it
    has a socket, and not with status zero, whatever its command line. *)
Lemma https_course_missing :
  absent w "cert.pem" \/ absent w "key.pem" ->
  bound (fst (https_course w)) = []
  /\ succeeded (snd (https_course w)) = false
  /\ (port_argument_ok w ->
      printed (fst (https_course w)) = diagnostic
      /\ snd (https_course w) = Exited 1).
Proof.
  intros A. unfold https_course.
  destruct (if (Z.of_nat (List.length (argv w)) <? 2) then Some 8443
            else int_ w (nth 1 (argv w) EmptyString)) as [port|] eqn:P.
  - assert (Cases : path_exists w [] "cert.pem" = false
                    \/ path_exists w [EvPathExists "cert.pem"] "key.pem" = false)
      by (destruct A as [A|A]; [left|right]; apply A).
    destruct (path_exists w [] "cert.pem"); cbn [negb].
    + destruct Cases as [C|C]; [discriminate|]. rewrite C. cbn [negb].
      repeat split; reflexivity.
    + repeat split; reflexivity.
  - split; [reflexivity|]. split; [reflexivity|].
    intros [L|(n & N)]; exfalso.
    + assert (T : (Z.of_nat (List.length (argv w)) <? 2) = true)
        by (apply Z.ltb_lt; lia).
      rewrite T in P. discriminate.
    + destruct (Z.of_nat (List.length (argv w)) <? 2); congruence.
Qed.

(** [https-server.py] has no port reclaimer: no run of it looks a process
    up, runs the fallback command or sends a signal, and nothing but the two
    existence checks comes before its server constructor. *)
Lemma https_course_no_reclaimer :
  existsb is_lsof (fst (https_course w)) = false
  /\ existsb is_fuser (fst (https_course w)) = false
  /\ existsb is_kill (fst (https_course w)) = false.
Proof.
  unfold https_course, https_serving, https_banner, diagnostic.
  destruct (if (Z.of_nat (List.length (argv w)) <? 2) then Some 8443
            else int_ w (nth 1 (argv w) EmptyString)) as [number|];
    [|repeat split; reflexivity].
  destruct (path_exists w [] "cert.pem"); cbn [negb];
    [|repeat split; reflexivity].
  destruct (path_exists w [EvPathExists "cert.pem"] "key.pem"); cbn [negb];
    [|repeat split; reflexivity].
  destruct (server_bind w _ number true) as [e|[]];
    [repeat split; reflexivity|].
  destruct (load_cert_chain w _ "cert.pem" "key.pem") as [e|[]];
    [repeat split; reflexivity|].
  destruct (wrap_socket w _) as [e|[]]; [repeat split; reflexivity|].
  destruct (serve_forever w _) as [[]|[]]; repeat split; reflexivity.
Qed.

Lemma https_course_before_bind (pre post : list event) (port : Z) (reuse : bool) :
  fst (https_course w) = (pre ++ EvBind port reuse :: post)%list ->
  pre = [EvPathExists "cert.pem"; EvPathExists "key.pem"].
Proof.
  intros H. https_cases H; locate H; reflexivity.
Qed.

End ScriptFacts.

(** C3, as the scripts have it: when [cert.pem] or [key.pem] is not in
    the working directory, [https-server.py] ends with a status that is not
    zero and without having created a socket, whatever its command line is;
    and when the port argument is absent or is one that [int] accepts, it
    prints the diagnostic (the two file names and the [openssl] command)
    before that and the status is 1. *)
Theorem missing_material_fails_fast (w : Script.World) :
  Script.absent w "cert.pem" \/ Script.absent w "key.pem" ->
  Script.bound (Script.events (Script.https_server_py w)) = []
  /\ Script.succeeded (Script.ending (Script.https_server_py w)) = false
  /\ (Script.port_argument_ok w ->
      Script.printed (Script.events (Script.https_server_py w)) = Script.diagnostic
      /\ Script.ending (Script.https_server_py w) = Script.Exited 1).
Proof.
  intros A. unfold Script.events, Script.ending.
  rewrite https_server_py_run.
  exact (https_course_missing w A).
Qed.

Lemma missing_material_fails_fast_witness :
  Script.bound
    (Script.events (Script.https_server_py (Script.no_key ["https-server.py"; "9443"])))
  = []
  /\ Script.succeeded
       (Script.ending (Script.https_server_py (Script.no_key ["https-server.py"; "9443"])))
     = false
  /\ Script.printed
       (Script.events (Script.https_server_py (Script.no_key ["https-server.py"; "9443"])))
     = Script.diagnostic
  /\ Script.ending (Script.https_server_py (Script.no_key ["https-server.py"; "9443"]))
     = Script.Exited 1.
Proof.
  assert (A : Script.absent (Script.no_key ["https-server.py"; "9443"]) "cert.pem"
              \/ Script.absent (Script.no_key ["https-server.py"; "9443"]) "key.pem")
    by (right; intros h; reflexivity).
  destruct (missing_material_fails_fast
              (Script.no_key ["https-server.py"; "9443"]) A) as (B & S & D).
  split; [exact B|]. split; [exact S|].
  apply D. right. exists 9443. reflexivity.
Defined.

(** C3, as it is stated, fails: with a port argument that [int] refuses and
    without [key.pem], the process ends with a traceback and has printed no
    diagnostic. *)
Lemma missing_material_without_diagnostic :
  Script.absent (Script.no_key ["https-server.py"; "http"]) "key.pem"
  /\ Script.printed
       (Script.events (Script.https_server_py (Script.no_key ["https-server.py"; "http"])))
     = []
  /\ Script.ending (Script.https_server_py (Script.no_key ["https-server.py"; "http"]))
     = Script.Traceback ValueError.
Proof.
  split; [intros h; reflexivity|]. split; reflexivity.
Qed.

(** C10: when the port argument is there and [int] refuses it,
    [https-server.py] ends with the [ValueError] of [int] uncaught, before
    it has looked for a certificate file or printed anything. *)
Theorem bad_port_argument_fails_first (w : Script.World) :
  (2 <= List.length (Script.argv w))%nat ->
  Script.int_ w (nth 1 (Script.argv w) EmptyString) = None ->
  Script.run (Script.https_server_py w) = ([], Script.Traceback ValueError).
Proof.
  intros L N. rewrite https_server_py_run. unfold Script.https_course.
  assert (T : (Z.of_nat (List.length (Script.argv w)) <? 2) = false)
    by (apply Z.ltb_ge; lia).
  now rewrite T, N.
Qed.

Lemma bad_port_argument_fails_first_witness :
  Script.run (Script.https_server_py (Script.calm ["https-server.py"; "http"]))
  = ([], Script.Traceback ValueError).
Proof.
  apply (bad_port_argument_fails_first (Script.calm ["https-server.py"; "http"])).
  - simpl. lia.
  - reflexivity.
Defined.

(** C9: [load_cert_chain] is called only on a server that has been
    constructed and bound, with address reuse; when it raises, the script
    ends there with that exception, the socket bound. *)
Theorem certificate_failure_follows_bind
        (w : Script.World) (pre post : list Script.event) :
  Script.events (Script.https_server_py w)
  = (pre ++ Script.EvLoadCertChain "cert.pem" "key.pem" :: post)%list ->
  (exists port before,
      pre = (before ++ [Script.EvBind port true])%list
      /\ Script.server_bind w before port true = Return tt)
  /\ (forall e,
        Script.load_cert_chain w pre "cert.pem" "key.pem" = Raise e ->
        post = []
        /\ Script.ending (Script.https_server_py w) = Script.terminate (Raise e)).
Proof.
  unfold Script.events, Script.ending. rewrite https_server_py_run.
  apply https_course_load.
Qed.

Lemma certificate_failure_follows_bind_witness :
  (exists port before,
      [Script.EvPathExists "cert.pem"; Script.EvPathExists "key.pem";
       Script.EvBind 8443 true]
      = (before ++ [Script.EvBind port true])%list
      /\ Script.server_bind (Script.bad_cert ["https-server.py"]) before port true
         = Return tt)
  /\ Script.ending (Script.https_server_py (Script.bad_cert ["https-server.py"]))
     = Script.Traceback SSLError.
Proof.
  destruct (certificate_failure_follows_bind
              (Script.bad_cert ["https-server.py"])
              [Script.EvPathExists "cert.pem"; Script.EvPathExists "key.pem";
               Script.EvBind 8443 true]
              [] eq_refl) as (B & F).
  split; [exact B|].
  exact (proj2 (F SSLError eq_refl)).
Defined.

(** C6: whatever the lookup, the signals and the fallback do, as long as the
    failures of the lookup and of the signals are instances of [Exception],
    [kill_process_on_port] returns; when the lookup itself raises, the
    fallback command is run; and the two scripts that call it go on to
    construct their server. *)
Theorem reclaim_never_raises (w : Script.World) (port : Z) (s : Script.proc) :
  Script.ordinary_failures w ->
  (exists s',
      Script.kill_process_on_port w port s = (s', Return tt)
      /\ (forall e,
            Script.subprocess_run w (Script.trace s) (Script.lsof_command port)
            = Raise e ->
            In (Script.EvRun (Script.fuser_command port)) (Script.trace s')))
  /\ (forall v, v <> Script.HttpsServerPy ->
       exists post,
         Script.events (Script.script_of v w)
         = (Script.reclaimed w ++ Script.EvBind Script.PORT true :: post)%list).
Proof.
  intros O. split.
  - destruct (kill_process_on_port_returns w port s O) as (tr & E & _ & U).
    eexists. split; [exact E|].
    intros e L. rewrite (U e L). cbn [Script.trace Script.extend].
    apply in_or_app. right. simpl. auto.
  - intros v V.
    destruct (kill_process_on_port_returns w Script.PORT Script.start O)
      as (tr & E & _ & _).
    assert (R : snd (Script.kill_process_on_port w Script.PORT Script.start)
                = Return tt) by now rewrite E.
    destruct (plain_course_reaches_bind w R) as (post & P).
    exists post. unfold Script.events.
    destruct v; cbn [Script.script_of];
      [rewrite server_py_run | rewrite server2_py_run | congruence]; exact P.
Qed.

Lemma reclaim_never_raises_witness :
  exists s',
    Script.kill_process_on_port (Script.bare ["server.py"]) 8081 Script.start
    = (s', Return tt)
    /\ In (Script.EvRun (Script.fuser_command 8081)) (Script.trace s').
Proof.
  assert (O : Script.ordinary_failures (Script.bare ["server.py"])).
  { split.
    - intros h cmd e H. simpl in H. injection H as <-. reflexivity.
    - intros h pid sig e H. discriminate H. }
  destruct (proj1 (reclaim_never_raises (Script.bare ["server.py"]) 8081
                     Script.start O)) as (s' & E & F).
  exists s'. split; [exact E|]. exact (F FileNotFoundError eq_refl).
Defined.

(** C8: in each of the three scripts, when [serve_forever] has been entered
    and is ended by an interrupt, the script prints its [Server stopped.]
    line and nothing else (the plain variants close the server), and the
    process ends with status zero, without a traceback. *)
Theorem interrupt_shuts_down_cleanly
        (w : Script.World) (v : Script.variant) (pre post : list Script.event) :
  Script.events (Script.script_of v w)
  = (pre ++ Script.EvServeForever :: post)%list ->
  Script.serve_forever w pre = Raise KeyboardInterrupt ->
  Script.ending (Script.script_of v w) = Script.Exited 0
  /\ post = Script.shutdown v.
Proof.
  unfold Script.events, Script.ending.
  destruct v; cbn [Script.script_of].
  - rewrite server_py_run. apply plain_course_interrupt.
  - rewrite server2_py_run. apply plain_course_interrupt.
  - rewrite https_server_py_run. apply https_course_interrupt.
Qed.

Lemma interrupt_shuts_down_cleanly_witness :
  Script.ending (Script.script_of Script.Server2Py (Script.busy ["server2.py"]))
  = Script.Exited 0
  /\ [Script.EvPrint (Script.nl ++ "Server stopped."); Script.EvServerClose]
     = Script.shutdown Script.Server2Py.
Proof.
  apply (interrupt_shuts_down_cleanly
           (Script.busy ["server2.py"]) Script.Server2Py
           ([ Script.EvRun ["lsof"; "-ti"; ":8081"];
              Script.EvPrint "Killing existing process 4711 on port 8081";
              Script.EvKill 4711 15;
              Script.EvPrint "Killing existing process 4712 on port 8081";
              Script.EvKill 4712 15;
              Script.EvRun ["fuser"; "-k"; "8081/tcp"];
              Script.EvBind 8081 true ] ++ Script.plain_banner)%list).
  - reflexivity.
  - reflexivity.
Defined.

(** C5, as the scripts have it: in [server.py] and in [server2.py] the
    server is constructed after [kill_process_on_port] has run and returned,
    on port 8081; [https-server.py] has no port reclaimer: in no run does it
    look a process up, run the fallback command or send a signal, and its
    server is constructed right after the two existence checks; in all three
    scripts the server is constructed with address reuse allowed. *)
Theorem reclaim_before_bind (w : Script.World) :
  (forall (v : Script.variant) (pre post : list Script.event)
          (port : Z) (reuse : bool),
      Script.events (Script.script_of v w)
      = (pre ++ Script.EvBind port reuse :: post)%list ->
      reuse = true
      /\ match v with
         | Script.HttpsServerPy =>
             pre = [Script.EvPathExists "cert.pem"; Script.EvPathExists "key.pem"]
         | _ =>
             port = Script.PORT
             /\ pre = Script.reclaimed w
             /\ snd (Script.kill_process_on_port w Script.PORT Script.start)
                = Return tt
             /\ hd_error pre = Some (Script.EvRun (Script.lsof_command Script.PORT))
         end)
  /\ existsb Script.is_lsof (Script.events (Script.https_server_py w)) = false
  /\ existsb Script.is_fuser (Script.events (Script.https_server_py w)) = false
  /\ existsb Script.is_kill (Script.events (Script.https_server_py w)) = false.
Proof.
  split.
  - intros v pre post port reuse. unfold Script.events.
    assert (Plain : fst (Script.plain_course w)
                    = (pre ++ Script.EvBind port reuse :: post)%list ->
      reuse = true
      /\ (port = Script.PORT
          /\ pre = Script.reclaimed w
          /\ snd (Script.kill_process_on_port w Script.PORT Script.start) = Return tt
          /\ hd_error pre = Some (Script.EvRun (Script.lsof_command Script.PORT)))).
    { intros H. destruct (plain_course_bind w pre post port reuse H)
        as (R & P & E & K).
      repeat split; try assumption.
      destruct (reclaimed_spec w) as (tr & r & _ & Q & _).
      rewrite E, Q. reflexivity. }
    destruct v; cbn [Script.script_of].
    + rewrite server_py_run. exact Plain.
    + rewrite server2_py_run. exact Plain.
    + rewrite https_server_py_run. intros H. split.
      * apply (https_course_bind w port reuse). rewrite H. apply bound_split.
      * exact (https_course_before_bind w pre post port reuse H).
  - unfold Script.events. rewrite https_server_py_run.
    apply https_course_no_reclaimer.
Qed.

Lemma reclaim_before_bind_witness :
  Script.PORT = 8081
  /\ [Script.EvRun ["lsof"; "-ti"; ":8081"]]
     = Script.reclaimed (Script.calm ["server.py"]).
Proof.
  destruct (proj1 (reclaim_before_bind (Script.calm ["server.py"]))
              Script.ServerPy
              [Script.EvRun ["lsof"; "-ti"; ":8081"]]
              (Script.plain_banner ++
               [Script.EvServeForever;
                Script.EvPrint (Script.nl ++ "Server stopped.");
                Script.EvServerClose])%list
              8081 true eq_refl) as (_ & _ & E & _).
  split; [reflexivity | exact E].
Defined.

(** C5, as it is stated, fails: [https-server.py] constructs its server
    without a port reclaimer having run: no lookup, no fallback command and
    no signal are in its trace. *)
Lemma https_binds_without_reclaiming :
  Script.bound (Script.events (Script.https_server_py (Script.calm ["https-server.py"])))
  = [(8443, true)]
  /\ existsb Script.is_lsof
       (Script.events (Script.https_server_py (Script.calm ["https-server.py"])))
     = false
  /\ existsb Script.is_fuser
       (Script.events (Script.https_server_py (Script.calm ["https-server.py"])))
     = false
  /\ existsb Script.is_kill
       (Script.events (Script.https_server_py (Script.calm ["https-server.py"])))
     = false.
Proof.
  repeat split; reflexivity.
Qed.

(** C7, as the scripts have it: [https-server.py] alone reads a port
    argument: it binds 8443 without one and the integer of its first
    argument with one, and nothing else of the command line reaches it;
    [server.py] and [server2.py] bind 8081 whatever the command line is. *)
Theorem port_argument_only_for_https (w : Script.World) (args : list string) :
  Script.run (Script.server_py (Script.with_argv w args))
  = Script.run (Script.server_py w)
  /\ Script.run (Script.server2_py (Script.with_argv w args))
     = Script.run (Script.server2_py w)
  /\ (forall port reuse,
        In (port, reuse) (Script.bound (Script.events (Script.server_py w)))
        \/ In (port, reuse) (Script.bound (Script.events (Script.server2_py w))) ->
        port = 8081)
  /\ (forall port reuse,
        In (port, reuse) (Script.bound (Script.events (Script.https_server_py w))) ->
        match Script.port_argument (Script.argv w) with
        | None => port = 8443
        | Some a => Script.int_ w a = Some port
        end)
  /\ (Script.port_argument args = Script.port_argument (Script.argv w) ->
      Script.run (Script.https_server_py (Script.with_argv w args))
      = Script.run (Script.https_server_py w)).
Proof.
  split; [reflexivity|]. split; [reflexivity|]. split; [|split].
  - assert (Plain : forall port reuse,
      In (port, reuse) (Script.bound (fst (Script.plain_course w))) -> port = 8081).
    { intros port reuse H.
      destruct (bound_In_split _ _ _ H) as (pre & post & E).
      now destruct (plain_course_bind w pre post port reuse E) as (_ & P & _). }
    unfold Script.events. rewrite server_py_run, server2_py_run.
    intros port reuse [H|H]; exact (Plain port reuse H).
  - intros port reuse. unfold Script.events. rewrite https_server_py_run.
    intros H. exact (proj2 (https_course_bind w port reuse H)).
  - intros A. rewrite !https_server_py_run. unfold Script.https_course.
    cbn [Script.with_argv Script.argv Script.int_].
    rewrite (https_port_choice w args), (https_port_choice w (Script.argv w)), A.
    reflexivity.
Qed.

Lemma port_argument_only_for_https_witness :
  Script.run (Script.https_server_py
                (Script.with_argv (Script.calm ["https-server.py"; "9443"])
                                  ["./https-server.py"; "9443"; "--verbose"]))
  = Script.run (Script.https_server_py (Script.calm ["https-server.py"; "9443"])).
Proof.
  apply (proj2 (proj2 (proj2 (proj2
           (port_argument_only_for_https
              (Script.calm ["https-server.py"; "9443"])
              ["./https-server.py"; "9443"; "--verbose"]))))).
  reflexivity.
Defined.

(** C7, as it is stated, fails: [server.py] and [server2.py] started with
    the port argument 9000 bind 8081. *)
Lemma plain_server_ignores_port_argument :
  Script.port_argument (Script.argv (Script.calm ["server.py"; "9000"])) = Some "9000"
  /\ Script.int_ (Script.calm ["server.py"; "9000"]) "9000" = Some 9000
  /\ Script.bound (Script.events (Script.server_py (Script.calm ["server.py"; "9000"])))
     = [(8081, true)]
  /\ Script.bound (Script.events (Script.server2_py (Script.calm ["server.py"; "9000"])))
     = [(8081, true)].
Proof.
  repeat split; reflexivity.
Qed.

(** ** The definitions at work *)

Example splitext_plain : Resolver.splitext "/srv/app.mjs" = ("/srv/app", ".mjs").
Proof. reflexivity. Qed.

Example splitext_hidden : Resolver.splitext "/srv/.bashrc" = ("/srv/.bashrc", "").
Proof. reflexivity. Qed.

Example splitext_dotted_directory :
  Resolver.splitext "/srv.d/readme" = ("/srv.d/readme", "").
Proof. reflexivity. Qed.

Example splitext_last_dot : Resolver.splitext "a.tar.gz" = ("a.tar", ".gz").
Proof. reflexivity. Qed.

Example guess_type_upper_case :
  Resolver.guess_type (fun s => s) "/pkg/Main.MJS" = Return "application/javascript".
Proof. reflexivity. Qed.

Example guess_type_unknown :
  Resolver.guess_type (fun s => s) "notes.txt" = Return "application/octet-stream".
Proof. reflexivity. Qed.

Example strip_then_split :
  Str.split "010" (Str.strip ("4711" ++ Script.nl ++ "4712" ++ Script.nl))
  = ["4711"; "4712"].
Proof. reflexivity. Qed.

Example not_found_on_the_wire :
  Handler.wfile
    (Handler.not_found Handler.JSHTTPRequestHandler.end_headers
       "SimpleHTTP/0.6 Python/3.11.2" "Thu, 05 Nov 2026 09:00:00 GMT"
       "gone" (Handler.fresh "HTTP/1.1"))
  = [ "HTTP/1.0 404 File not found" ++ Handler.CRLF;
      "Server: SimpleHTTP/0.6 Python/3.11.2" ++ Handler.CRLF;
      "Date: Thu, 05 Nov 2026 09:00:00 GMT" ++ Handler.CRLF;
      "Connection: close" ++ Handler.CRLF;
      "Content-Type: text/html;charset=utf-8" ++ Handler.CRLF;
      "Content-Length: 4" ++ Handler.CRLF;
      "Access-Control-Allow-Origin: *" ++ Handler.CRLF;
      "Cache-Control: no-cache, no-store, must-revalidate" ++ Handler.CRLF;
      "Pragma: no-cache" ++ Handler.CRLF;
      "Expires: 0" ++ Handler.CRLF;
      Handler.CRLF;
      "gone" ].
Proof. reflexivity. Qed.

Example https_without_key :
  Script.run (Script.https_server_py (Script.no_key ["https-server.py"]))
  = ( Script.EvPathExists "cert.pem" :: Script.EvPathExists "key.pem"
        :: map Script.EvPrint Script.diagnostic,
      Script.Exited 1 ).
Proof. reflexivity. Qed.

Example server_py_on_a_busy_port :
  Script.events (Script.server_py (Script.busy ["server.py"]))
  = ([ Script.EvRun ["lsof"; "-ti"; ":8081"];
       Script.EvPrint "Killing existing process 4711 on port 8081";
       Script.EvKill 4711 15;
       Script.EvPrint "Killing existing process 4712 on port 8081";
       Script.EvKill 4712 15;
       Script.EvRun ["fuser"; "-k"; "8081/tcp"];
       Script.EvBind 8081 true ]
     ++ Script.plain_banner
     ++ [ Script.EvServeForever;
          Script.EvPrint (Script.nl ++ "Server stopped.");
          Script.EvServerClose ])%list.
Proof. reflexivity. Qed.

(** * More of the code *)

(** ** Paths and extensions *)

Lemma has_char_append (c : ascii) (a b : string) :
  Str.has_char c (a ++ b) = Str.has_char c a || Str.has_char c b.
Proof.
  induction a as [|x a IH]; simpl; [reflexivity|].
  now rewrite IH, orb_assoc.
Qed.

Lemma only_dots_no_slash (s : string) :
  Str.only_dots s = true -> Str.has_char "/" s = false.
Proof.
  induction s as [|x s IH]; simpl; [reflexivity|].
  rewrite andb_true_iff. intros [D H]. rewrite (IH H).
  apply Ascii.eqb_eq in D. now subst x.
Qed.

(** [rfind] from another index and another answer so far. *)
Lemma rfind_from_shift (c : ascii) (s : string) (i last : Z) :
  Str.rfind_from c s i last
  = if Str.has_char c s then i + Str.rfind c s else last.
Proof.
  unfold Str.rfind. revert i last.
  induction s as [|a s IH]; intros i last; simpl; [reflexivity|].
  rewrite (IH (i + 1)), (IH 1).
  destruct (Ascii.eqb a c); destruct (Str.has_char c s); cbn [orb]; lia.
Qed.

Lemma rfind_range (c : ascii) (s : string) :
  -1 <= Str.rfind c s < Z.of_nat (String.length s)
  /\ (Str.has_char c s = true -> 0 <= Str.rfind c s).
Proof.
  induction s as [|a s IH].
  - split; [cbn; lia | discriminate].
  - destruct IH as (R & P).
    unfold Str.rfind. cbn [Str.rfind_from Str.has_char String.length].
    rewrite (rfind_from_shift c s (0 + 1)).
    destruct (Ascii.eqb a c); destruct (Str.has_char c s); cbn [orb];
      try specialize (P eq_refl); (split; [lia | try discriminate; intros _; lia]).
Qed.

Lemma drop_add (pfx s : string) (n : nat) :
  Str.drop (String.length pfx + n) (pfx ++ s) = Str.drop n s.
Proof. induction pfx as [|x pfx IH]; simpl; [reflexivity | exact IH]. Qed.

Lemma take_add (pfx s : string) (n : nat) :
  Str.take (String.length pfx + n) (pfx ++ s) = pfx ++ Str.take n s.
Proof. induction pfx as [|x pfx IH]; simpl; [reflexivity | now rewrite IH]. Qed.

Lemma char_at_shift (pfx s : string) (i : Z) :
  0 <= i ->
  Str.char_at (pfx ++ s) (Z.of_nat (String.length pfx) + i) = Str.char_at s i.
Proof.
  intros I. unfold Str.char_at.
  replace (Z.of_nat (String.length pfx) + i <? 0) with false
    by (symmetry; apply Z.ltb_ge; lia).
  replace (i <? 0) with false by (symmetry; apply Z.ltb_ge; lia).
  replace (Z.to_nat (Z.of_nat (String.length pfx) + i))
    with (String.length pfx + Z.to_nat i)%nat by lia.
  now rewrite drop_add.
Qed.

Lemma skip_leading_dots_shift (pfx s : string) (i : Z) (n : nat) :
  0 <= i ->
  Resolver.skip_leading_dots (pfx ++ s) (Z.of_nat (String.length pfx) + i) n
  = Resolver.skip_leading_dots s i n.
Proof.
  revert i. induction n as [|n IH]; intros i I; simpl; [reflexivity|].
  rewrite char_at_shift by exact I.
  rewrite <- (IH (i + 1)) by lia.
  now rewrite Z.add_assoc.
Qed.

(** The extension of a path is that of its last segment. *)
Lemma splitext_in_directory (d file : string) :
  Str.has_char "/" file = false ->
  snd (Resolver.splitext (d ++ "/" ++ file)) = snd (Resolver.splitext file).
Proof.
  intros NoSlash.
  set (pfx := d ++ "/").
  assert (P : d ++ "/" ++ file = pfx ++ file)
    by (unfold pfx; now rewrite append_assoc).
  assert (Len : Z.of_nat (String.length pfx) = Z.of_nat (String.length d) + 1)
    by (unfold pfx; rewrite length_append; simpl; lia).
  rewrite P. unfold Resolver.splitext.
  assert (Sep : Str.rfind "/" (pfx ++ file) = Z.of_nat (String.length pfx) - 1).
  { unfold Str.rfind. rewrite rfind_from_append.
    rewrite (rfind_from_absent "/" file) by exact NoSlash.
    unfold pfx. rewrite rfind_from_append. simpl.
    rewrite length_append. simpl. lia. }
  assert (SepF : Str.rfind "/" file = -1)
    by (unfold Str.rfind; now apply rfind_from_absent).
  assert (Dot : Str.rfind "." (pfx ++ file)
                = if Str.has_char "." file
                  then Z.of_nat (String.length pfx) + Str.rfind "." file
                  else Str.rfind "." d).
  { unfold Str.rfind at 1. rewrite rfind_from_append, rfind_from_shift.
    destruct (Str.has_char "." file); [lia|].
    unfold pfx. rewrite rfind_from_append. reflexivity. }
  rewrite Sep, SepF, Dot.
  destruct (rfind_range "." file) as (R & Pos).
  destruct (Str.has_char "." file) eqn:HasDot.
  - specialize (Pos eq_refl).
    replace (Z.of_nat (String.length pfx) - 1
             <? Z.of_nat (String.length pfx) + Str.rfind "." file) with true
      by (symmetry; apply Z.ltb_lt; lia).
    replace (-1 <? Str.rfind "." file) with true
      by (symmetry; apply Z.ltb_lt; lia).
    replace (Z.of_nat (String.length pfx) - 1 + 1)
      with (Z.of_nat (String.length pfx) + 0) by lia.
    replace (Z.to_nat (Z.of_nat (String.length pfx) + Str.rfind "." file
                       - (Z.of_nat (String.length pfx) + 0)))
      with (Z.to_nat (Str.rfind "." file - (-1 + 1))) by lia.
    rewrite skip_leading_dots_shift by lia.
    replace (-1 + 1) with 0 by lia.
    destruct (Resolver.skip_leading_dots file 0 _); cbn [andb snd];
      [|reflexivity].
    replace (Z.to_nat (Z.of_nat (String.length pfx) + Str.rfind "." file))
      with (String.length pfx + Z.to_nat (Str.rfind "." file))%nat by lia.
    now rewrite drop_add.
  - destruct (rfind_range "." d) as (Rd & _).
    replace (Z.of_nat (String.length pfx) - 1 <? Str.rfind "." d) with false
      by (symmetry; apply Z.ltb_ge; lia).
    replace (-1 <? Str.rfind "." file) with false
      by (symmetry; apply Z.ltb_ge;
          unfold Str.rfind; rewrite rfind_from_absent by exact HasDot; lia).
    reflexivity.
Qed.

(** A name that begins with dots and has no other dot has no extension. *)
Lemma splitext_dot_file (dots name : string) :
  Str.only_dots dots = true ->
  Str.has_char "." name = false ->
  Str.has_char "/" name = false ->
  Resolver.splitext (dots ++ "." ++ name) = (dots ++ "." ++ name, "").
Proof.
  intros Dots NoDot NoSlash. unfold Resolver.splitext.
  assert (Sep : Str.rfind "/" (dots ++ "." ++ name) = -1).
  { unfold Str.rfind. apply rfind_from_absent.
    rewrite has_char_append, (only_dots_no_slash dots Dots). simpl.
    exact NoSlash. }
  assert (Dot : Str.rfind "." (dots ++ "." ++ name)
                = Z.of_nat (String.length dots)).
  { unfold Str.rfind. rewrite rfind_from_append.
    cbn [append Str.rfind_from]. rewrite Ascii.eqb_refl.
    rewrite (rfind_from_absent "." name) by exact NoDot. lia. }
  rewrite Sep, Dot.
  replace (Z.to_nat (Z.of_nat (String.length dots) - (-1 + 1)))
    with (String.length dots) by lia.
  pose proof (skip_leading_dots_name "" dots ("." ++ name)) as Skip.
  change (-1 + 1) with (Z.of_nat 0).
  cbn [append String.length] in Skip |- *.
  rewrite Skip, Dots. now rewrite andb_false_r.
Qed.

(** X1: every entry of the table is found whatever the case of the
    extension: an extension that is a key up to the case of its ASCII letters
    resolves to the type of that key ([.WASM], [.Json], [.HTML], ...). *)
Theorem known_extension_any_case
        (unicode_lower : string -> string) (path key mime : string) :
  In (key, mime) Resolver.extensions_map ->
  Resolver.eq_ignore_case (snd (Resolver.splitext path)) key = true ->
  Resolver.guess_type unicode_lower path = Return mime.
Proof.
  intros Hin Heq. now apply guess_type_ignores_case with (key := key).
Qed.

Lemma known_extension_any_case_witness :
  Resolver.guess_type (fun s => s) "/pkg/Solver.WASM" = Return "application/wasm".
Proof.
  apply (known_extension_any_case (fun s => s) "/pkg/Solver.WASM" ".wasm").
  - simpl. tauto.
  - reflexivity.
Defined.

(** X2: what [guess_type] returns is always a type of the table: no path
    gets a type from anywhere else. *)
Theorem guess_type_in_table (unicode_lower : string -> string) (path : string) :
  exists key mime,
    Resolver.guess_type unicode_lower path = Return mime
    /\ In (key, mime) Resolver.extensions_map.
Proof.
  rewrite guess_type_by_ext. cbv zeta.
  destruct (Resolver.contains Resolver.extensions_map
              (snd (Resolver.splitext path))) eqn:C1.
  - destruct (getitem_contains _ _ C1) as (v & G & I). eauto.
  - destruct (Resolver.contains Resolver.extensions_map
                (Resolver.lower unicode_lower (snd (Resolver.splitext path))))
      eqn:C2.
    + destruct (getitem_contains _ _ C2) as (v & G & I). eauto.
    + exists "", "application/octet-stream". split; [reflexivity|].
      simpl. tauto.
Qed.

(** X3: an ASCII extension that is no key of the table, in any case, gets
    the fallback type: [.txt], [.py], [.map] are served as
    [application/octet-stream]. *)
Theorem unknown_extension_falls_back
        (unicode_lower : string -> string) (path : string) :
  Str.isascii (snd (Resolver.splitext path)) = true ->
  Resolver.contains Resolver.extensions_map
    (Str.lower_ascii (snd (Resolver.splitext path))) = false ->
  Resolver.guess_type unicode_lower path = Return "application/octet-stream".
Proof.
  intros Ascii Unknown. rewrite guess_type_by_ext. cbv zeta.
  set (ext := snd (Resolver.splitext path)) in *.
  unfold Resolver.lower. rewrite Ascii, Unknown.
  destruct (Resolver.contains Resolver.extensions_map ext) eqn:C1;
    [exfalso | reflexivity].
  assert (Key : In ext (map fst Resolver.extensions_map))
    by (apply contains_In; [exact unicode_lower | exact C1]).
  rewrite (keys_lower_case ext Key) in Unknown. congruence.
Qed.

Lemma unknown_extension_falls_back_witness :
  Resolver.guess_type (fun s => s) "/docs/README.TXT"
  = Return "application/octet-stream".
Proof.
  apply (unknown_extension_falls_back (fun s => s) "/docs/README.TXT");
    reflexivity.
Defined.

(** X4: the directory of a file does not count: a path resolves to the type
    of its last segment, whatever dots the directories before it have. *)
Theorem directory_does_not_matter
        (unicode_lower : string -> string) (d file : string) :
  Str.has_char "/" file = false ->
  Resolver.guess_type unicode_lower (d ++ "/" ++ file)
  = Resolver.guess_type unicode_lower file.
Proof.
  intros NoSlash. rewrite !guess_type_by_ext.
  now rewrite (splitext_in_directory d file NoSlash).
Qed.

Lemma directory_does_not_matter_witness :
  Resolver.guess_type (fun s => s) ("/srv/v1.2/assets.d" ++ "/" ++ "readme")
  = Resolver.guess_type (fun s => s) "readme".
Proof.
  apply (directory_does_not_matter (fun s => s) "/srv/v1.2/assets.d" "readme").
  reflexivity.
Defined.

(** X5: a file whose name begins with its only dots ([.js], [.gitignore],
    [..data]) has no extension and gets the fallback type, in the working
    directory and in any other. *)
Theorem dot_file_falls_back
        (unicode_lower : string -> string) (d dots name : string) :
  Str.only_dots dots = true ->
  Str.has_char "." name = false ->
  Str.has_char "/" name = false ->
  Resolver.guess_type unicode_lower (dots ++ "." ++ name)
  = Return "application/octet-stream"
  /\ Resolver.guess_type unicode_lower (d ++ "/" ++ dots ++ "." ++ name)
     = Return "application/octet-stream".
Proof.
  intros Dots NoDot NoSlash.
  assert (Here : Resolver.guess_type unicode_lower (dots ++ "." ++ name)
                 = Return "application/octet-stream").
  { rewrite guess_type_by_ext, (splitext_dot_file dots name Dots NoDot NoSlash).
    reflexivity. }
  split; [exact Here|].
  rewrite guess_type_by_ext, splitext_in_directory.
  - rewrite (splitext_dot_file dots name Dots NoDot NoSlash). reflexivity.
  - rewrite has_char_append, (only_dots_no_slash dots Dots). simpl.
    exact NoSlash.
Qed.

Lemma dot_file_falls_back_witness :
  Resolver.guess_type (fun s => s) ("" ++ "." ++ "js")
  = Return "application/octet-stream"
  /\ Resolver.guess_type (fun s => s) ("/srv" ++ "/" ++ "" ++ "." ++ "js")
     = Return "application/octet-stream".
Proof.
  apply (dot_file_falls_back (fun s => s) "/srv" "" "js"); reflexivity.
Defined.

(** X6: only what follows the last dot of the file name decides: two paths
    that end in the same suffix resolve alike, whatever their directories
    and whatever other dots their file names have. *)
Theorem last_suffix_decides
        (unicode_lower : string -> string)
        (dir1 name1 dir2 name2 suffix : string) :
  (dir1 = "" \/ exists d, dir1 = d ++ "/") ->
  (dir2 = "" \/ exists d, dir2 = d ++ "/") ->
  Str.has_char "/" name1 = false -> Str.only_dots name1 = false ->
  Str.has_char "/" name2 = false -> Str.only_dots name2 = false ->
  Str.has_char "/" suffix = false -> Str.has_char "." suffix = false ->
  Resolver.guess_type unicode_lower (dir1 ++ name1 ++ "." ++ suffix)
  = Resolver.guess_type unicode_lower (dir2 ++ name2 ++ "." ++ suffix).
Proof.
  intros D1 D2 S1 O1 S2 O2 NoSlash NoDot.
  rewrite !guess_type_by_ext.
  rewrite (splitext_suffix dir1 name1 suffix D1 S1 O1 NoSlash NoDot).
  rewrite (splitext_suffix dir2 name2 suffix D2 S2 O2 NoSlash NoDot).
  reflexivity.
Qed.

Lemma last_suffix_decides_witness :
  Resolver.guess_type (fun s => s) ("/dist/" ++ "app.js" ++ "." ++ "map")
  = Resolver.guess_type (fun s => s) ("" ++ "x" ++ "." ++ "map").
Proof.
  apply (last_suffix_decides (fun s => s) "/dist/" "app.js" "" "x" "map");
    try reflexivity.
  - right. exists "/dist". reflexivity.
  - left. reflexivity.
Defined.

(** ** More of the port reclaimer *)

Section ReclaimerFacts.

Import Script.
Local Open Scope script_scope.

Variable w : World.

Lemma extend_trace (s : proc) (tr : list event) :
  trace (extend s tr) = (trace s ++ tr)%list.
Proof. reflexivity. Qed.

(** The loop when every line is a number and every signal is delivered. *)
Lemma kill_loop_all (port : Z) (pids : list string) (nums : list Z) (s : proc) :
  Forall2 (fun pid n => int_ w pid = Some n) pids nums ->
  (forall h n, In n nums -> os_kill w h n SIGTERM = Return tt) ->
  for_each pids (fun pid =>
    print ("Killing existing process " ++ pid ++ " on port " ++ Str.of_Z port) ;;
    n <- int w pid ;;
    kill w n SIGTERM) s
  = (extend s (signalled port pids nums), Return tt).
Proof.
  intros F. revert s. induction F as [|pid n pids nums P F IH]; intros s K.
  - simpl. unfold ret. now rewrite extend_nil.
  - cbn [for_each signalled]. unfold bind at 1. unfold bind at 1.
    unfold print at 1, call at 1. rewrite log_extend.
    unfold bind at 1. unfold int at 1. rewrite P.
    unfold ret at 1. unfold kill at 1, call at 1.
    rewrite log_extend, extend_extend.
    rewrite (K _ n) by now left.
    rewrite IH by (intros h m M; apply K; now right).
    now rewrite extend_extend.
Qed.

(** The loop when the line [bad], after lines that went well, is no number
    or names a process that cannot be signalled: the loop ends there. *)
Lemma kill_loop_stops (port : Z) (done : list string) (nums : list Z)
      (bad : string) (rest : list string) (s : proc) :
  Forall2 (fun pid n => int_ w pid = Some n) done nums ->
  (forall h n, In n nums -> os_kill w h n SIGTERM = Return tt) ->
  for_each (done ++ bad :: rest) (fun pid =>
    print ("Killing existing process " ++ pid ++ " on port " ++ Str.of_Z port) ;;
    n <- int w pid ;;
    kill w n SIGTERM) s
  = match int_ w bad with
    | None =>
        (extend s (signalled port done nums
                   ++ [EvPrint ("Killing existing process " ++ bad ++ " on port "
                                ++ Str.of_Z port)]),
         Raise ValueError)
    | Some n =>
        match os_kill w
                (trace s ++ signalled port done nums
                 ++ [EvPrint ("Killing existing process " ++ bad ++ " on port "
                              ++ Str.of_Z port)]) n SIGTERM with
        | Raise e => (extend s (signalled port done nums ++ signalling port bad n),
                      Raise e)
        | Return _ =>
            for_each rest (fun pid =>
              print ("Killing existing process " ++ pid ++ " on port "
                     ++ Str.of_Z port) ;;
              n <- int w pid ;;
              kill w n SIGTERM)
              (extend s (signalled port done nums ++ signalling port bad n))
        end
    end.
Proof.
  intros F. revert s. induction F as [|pid n pids nums P F IH]; intros s K.
  - cbn [app for_each signalled]. unfold bind at 1. unfold bind at 1.
    unfold print at 1, call at 1. rewrite log_extend.
    unfold bind at 1. unfold int at 1.
    destruct (int_ w bad) as [n|]; [|reflexivity].
    unfold ret at 1. unfold kill at 1, call at 1.
    rewrite log_extend, extend_extend, extend_trace.
    destruct (os_kill w _ n SIGTERM) as [e|[]]; reflexivity.
  - cbn [app for_each signalled]. unfold bind at 1. unfold bind at 1.
    unfold print at 1, call at 1. rewrite log_extend.
    unfold bind at 1. unfold int at 1. rewrite P.
    unfold ret at 1. unfold kill at 1, call at 1.
    rewrite log_extend, extend_extend.
    rewrite (K _ n) by now left.
    rewrite IH by (intros h m M; apply K; now right).
    rewrite extend_trace, <- !app_assoc.
    destruct (int_ w bad) as [m|]; [|now rewrite extend_extend, <- !app_assoc].
    change (([EvPrint ("Killing existing process " ++ pid ++ " on port "
                       ++ Str.of_Z port)] ++ [EvKill n SIGTERM])
            ++ signalled port pids nums)%list
      with (signalling port pid n ++ signalled port pids nums)%list.
    rewrite !extend_extend, <- !app_assoc.
    reflexivity.
Qed.

(** What the reclaimer does after a lookup that found something. *)
Lemma kill_after_lookup (port : Z) (pids : list string) (s : proc) :
  lookup_finds w (trace s) port pids ->
  kill_process_on_port w port s
  = match for_each pids (fun pid =>
            print ("Killing existing process " ++ pid ++ " on port "
                   ++ Str.of_Z port) ;;
            n <- int w pid ;;
            kill w n SIGTERM) (extend s [EvRun (lsof_command port)]) with
    | (s', Raise e) =>
        if is_Exception e
        then (extend s' [EvRun (fuser_command port)], Return tt)
        else (s', Raise e)
    | r => r
    end.
Proof.
  intros (result & L & RC & NE & <-).
  unfold kill_process_on_port. unfold try_except at 1.
  unfold bind at 1. unfold run_command at 1, call at 1.
  rewrite L, log_extend, RC.
  assert (T : truthy (Str.strip (stdout result)) = true)
    by (destruct (Str.strip (stdout result)); [congruence | reflexivity]).
  rewrite T. cbn [Z.eqb andb].
  destruct (for_each _ _ _) as [s' [e|[]]]; [|reflexivity].
  destruct (is_Exception e); [|reflexivity].
  unfold try_except, bind, run_command, call. rewrite log_extend.
  destruct (subprocess_run w (trace s') (fuser_command port)); reflexivity.
Qed.

(** The steps of the loop. *)
Lemma kill_loop_steps (port : Z) (pids : list string) (s : proc) :
  exists tr r,
    for_each pids (fun pid =>
      print ("Killing existing process " ++ pid ++ " on port " ++ Str.of_Z port) ;;
      n <- int w pid ;;
      kill w n SIGTERM) s = (extend s tr, r)
    /\ Forall (reclaim_step port) tr.
Proof.
  revert s. induction pids as [|pid pids IH]; intros s.
  - exists [], (Return tt). simpl. unfold ret. rewrite extend_nil. auto.
  - cbn [for_each]. unfold bind at 1. unfold bind at 1.
    unfold print at 1, call at 1. rewrite log_extend.
    unfold bind at 1. unfold int at 1.
    destruct (int_ w pid) as [n|].
    + unfold ret at 1. unfold kill at 1, call at 1.
      rewrite log_extend, extend_extend.
      destruct (os_kill w _ n SIGTERM) as [e|[]].
      * eexists _, _. split; [reflexivity|].
        repeat constructor.
      * destruct (IH (extend s ([EvPrint ("Killing existing process " ++ pid
                    ++ " on port " ++ Str.of_Z port)] ++ [EvKill n SIGTERM])))
          as (tr & r & E & F).
        rewrite E, extend_extend. eexists _, _. split; [reflexivity|].
        apply Forall_app. split; [repeat constructor | exact F].
    + unfold raise. eexists _, _. split; [reflexivity|]. repeat constructor.
Qed.

End ReclaimerFacts.

(** X8: when the lookup lists processes, every line is a number and every
    signal is delivered, the reclaimer announces and signals each listed
    process once, in the order of the list, with [SIGTERM], and does nothing
    else: the fallback command is not run. *)
Theorem reclaimer_signals_each_process
        (w : Script.World) (port : Z) (s : Script.proc)
        (pids : list string) (nums : list Z) :
  Script.lookup_finds w (Script.trace s) port pids ->
  Forall2 (fun pid n => Script.int_ w pid = Some n) pids nums ->
  (forall h n, In n nums -> Script.os_kill w h n Script.SIGTERM = Return tt) ->
  Script.kill_process_on_port w port s
  = (Script.extend s (Script.EvRun (Script.lsof_command port)
                      :: Script.signalled port pids nums),
     Return tt).
Proof.
  intros L F K. rewrite (kill_after_lookup w port pids s L).
  rewrite (kill_loop_all w port pids nums _ F K).
  now rewrite extend_extend.
Qed.

Lemma reclaimer_signals_each_process_witness :
  Script.kill_process_on_port (Script.crowded ["server.py"]) 8081 Script.start
  = (Script.extend Script.start
       [ Script.EvRun ["lsof"; "-ti"; ":8081"];
         Script.EvPrint "Killing existing process 4711 on port 8081";
         Script.EvKill 4711 15;
         Script.EvPrint "Killing existing process 4712 on port 8081";
         Script.EvKill 4712 15 ],
     Return tt).
Proof.
  apply (reclaimer_signals_each_process
           (Script.crowded ["server.py"]) 8081 Script.start
           ["4711"; "4712"] [4711; 4712]).
  - eexists. split; [reflexivity|]. split; [reflexivity|].
    split; [discriminate | reflexivity].
  - repeat constructor.
  - intros h n _. reflexivity.
Defined.

(** X9: a lookup that runs and ends with another status than zero, or
    prints nothing but white space, is taken for a free port: the reclaimer
    sends no signal, does not run the fallback command and returns. *)
Theorem reclaimer_with_nothing_found
        (w : Script.World) (port : Z) (s : Script.proc)
        (result : Script.CompletedProcess) :
  Script.subprocess_run w (Script.trace s) (Script.lsof_command port)
  = Return result ->
  Script.returncode result <> 0 \/ Str.strip (Script.stdout result) = "" ->
  Script.kill_process_on_port w port s
  = (Script.extend s [Script.EvRun (Script.lsof_command port)], Return tt).
Proof.
  intros L N. now apply kill_process_on_port_nothing_found with (result := result).
Qed.

Lemma reclaimer_with_nothing_found_witness :
  Script.kill_process_on_port (Script.calm ["server.py"]) 8081 Script.start
  = (Script.extend Script.start [Script.EvRun ["lsof"; "-ti"; ":8081"]], Return tt).
Proof.
  apply (reclaimer_with_nothing_found
           (Script.calm ["server.py"]) 8081 Script.start
           {| Script.returncode := 1; Script.stdout := "" |}).
  - reflexivity.
  - left. discriminate.
Defined.

(** X10: a line of the lookup that is no number ends the loop: the line is
    announced, no signal is sent for it or for the lines after it, the
    fallback command is run and the reclaimer returns. *)
Theorem unreadable_line_ends_the_loop
        (w : Script.World) (port : Z) (s : Script.proc)
        (done : list string) (nums : list Z) (bad : string) (rest : list string) :
  Script.lookup_finds w (Script.trace s) port (done ++ bad :: rest) ->
  Forall2 (fun pid n => Script.int_ w pid = Some n) done nums ->
  (forall h n, In n nums -> Script.os_kill w h n Script.SIGTERM = Return tt) ->
  Script.int_ w bad = None ->
  Script.kill_process_on_port w port s
  = (Script.extend s
       (Script.EvRun (Script.lsof_command port)
        :: Script.signalled port done nums
        ++ [ Script.EvPrint ("Killing existing process " ++ bad ++ " on port "
                             ++ Str.of_Z port);
             Script.EvRun (Script.fuser_command port) ]),
     Return tt).
Proof.
  intros L F K B. rewrite (kill_after_lookup w port _ s L).
  rewrite (kill_loop_stops w port done nums bad rest _ F K), B.
  cbn [is_Exception]. rewrite !extend_extend.
  cbn [app]. now rewrite <- !app_assoc.
Qed.

Lemma unreadable_line_ends_the_loop_witness :
  Script.kill_process_on_port (Script.garbled ["server.py"]) 8081 Script.start
  = (Script.extend Script.start
       [ Script.EvRun ["lsof"; "-ti"; ":8081"];
         Script.EvPrint "Killing existing process 4711 on port 8081";
         Script.EvKill 4711 15;
         Script.EvPrint "Killing existing process lsof: WARNING on port 8081";
         Script.EvRun ["fuser"; "-k"; "8081/tcp"] ],
     Return tt).
Proof.
  apply (unreadable_line_ends_the_loop
           (Script.garbled ["server.py"]) 8081 Script.start
           ["4711"] [4711] "lsof: WARNING" ["4712"]).
  - eexists. split; [reflexivity|]. split; [reflexivity|].
    split; [discriminate | reflexivity].
  - repeat constructor.
  - intros h n _. reflexivity.
  - reflexivity.
Defined.

(** X11: a signal that fails with an [Exception] ends the loop in the same
    way: the processes listed after it are not signalled, the fallback
    command is run and the reclaimer returns. *)
Theorem failed_signal_ends_the_loop
        (w : Script.World) (port : Z) (s : Script.proc)
        (done : list string) (nums : list Z)
        (bad : string) (n : Z) (e : exn) (rest : list string) :
  Script.lookup_finds w (Script.trace s) port (done ++ bad :: rest) ->
  Forall2 (fun pid n => Script.int_ w pid = Some n) done nums ->
  (forall h n, In n nums -> Script.os_kill w h n Script.SIGTERM = Return tt) ->
  Script.int_ w bad = Some n ->
  (forall h, Script.os_kill w h n Script.SIGTERM = Raise e) ->
  is_Exception e = true ->
  Script.kill_process_on_port w port s
  = (Script.extend s
       (Script.EvRun (Script.lsof_command port)
        :: Script.signalled port done nums
        ++ Script.signalling port bad n
        ++ [Script.EvRun (Script.fuser_command port)]),
     Return tt).
Proof.
  intros L F K B Fail X. rewrite (kill_after_lookup w port _ s L).
  rewrite (kill_loop_stops w port done nums bad rest _ F K), B, Fail, X.
  rewrite !extend_extend. cbn [app]. now rewrite <- !app_assoc.
Qed.

Lemma failed_signal_ends_the_loop_witness :
  Script.kill_process_on_port (Script.busy ["server.py"]) 8081 Script.start
  = (Script.extend Script.start
       [ Script.EvRun ["lsof"; "-ti"; ":8081"];
         Script.EvPrint "Killing existing process 4711 on port 8081";
         Script.EvKill 4711 15;
         Script.EvPrint "Killing existing process 4712 on port 8081";
         Script.EvKill 4712 15;
         Script.EvRun ["fuser"; "-k"; "8081/tcp"] ],
     Return tt).
Proof.
  apply (failed_signal_ends_the_loop
           (Script.busy ["server.py"]) 8081 Script.start
           ["4711"] [4711] "4712" 4712 PermissionError []).
  - eexists. split; [reflexivity|]. split; [reflexivity|].
    split; [discriminate | reflexivity].
  - repeat constructor.
  - intros h n [<-|[]]. reflexivity.
  - reflexivity.
  - intros h. reflexivity.
  - reflexivity.
Defined.

(** X12: whatever the world answers, the reclaimer only adds to the trace,
    leaves the class attributes alone, and adds nothing but messages, its
    two commands on the port it was given, and [SIGTERM] signals: it never
    sends another signal and never binds, serves or closes anything. *)
Theorem reclaimer_steps (w : Script.World) (port : Z) (s : Script.proc) :
  exists tr r,
    Script.kill_process_on_port w port s = (Script.extend s tr, r)
    /\ Forall (Script.reclaim_step port) tr.
Proof.
  assert (Fuser : forall s0,
    Script.try_except
      (Script.bind (Script.run_command w (Script.fuser_command port))
                   (fun _ => Script.ret tt))
      Script.any_exception (Script.ret tt) s0
    = (Script.extend s0 [Script.EvRun (Script.fuser_command port)], Return tt)).
  { intros s0. unfold Script.try_except, Script.bind, Script.run_command,
      Script.call. rewrite log_extend.
    destruct (Script.subprocess_run w (Script.trace s0)
                (Script.fuser_command port)); reflexivity. }
  unfold Script.kill_process_on_port. unfold Script.try_except at 1.
  unfold Script.bind at 1. unfold Script.run_command at 1, Script.call at 1.
  rewrite log_extend.
  destruct (Script.subprocess_run w (Script.trace s) (Script.lsof_command port))
    as [e|result].
  - destruct (is_Exception e).
    + rewrite Fuser, extend_extend. eexists _, _. split; [reflexivity|].
      repeat first [apply Forall_nil | apply Forall_cons]; simpl; auto.
    + eexists _, _. split; [reflexivity|]. repeat first [apply Forall_nil | apply Forall_cons]; simpl; auto.
  - destruct ((Script.returncode result =? 0)
              && Script.truthy (Str.strip (Script.stdout result))).
    + destruct (kill_loop_steps w port
                  (Str.split "010" (Str.strip (Script.stdout result)))
                  (Script.extend s [Script.EvRun (Script.lsof_command port)]))
        as (tr & r & E & F).
      rewrite E, extend_extend.
      destruct r as [e|[]].
      * destruct (is_Exception e).
        -- rewrite Fuser, extend_extend. eexists _, _. split; [reflexivity|].
           apply Forall_app. split.
           ++ apply Forall_app. split; [|exact F].
              repeat first [apply Forall_nil | apply Forall_cons]; simpl; auto.
           ++ repeat first [apply Forall_nil | apply Forall_cons]; simpl; auto.
        -- eexists _, _. split; [reflexivity|].
           apply Forall_app. split; [|exact F].
           repeat first [apply Forall_nil | apply Forall_cons]; simpl; auto.
      * eexists _, _. split; [reflexivity|].
        apply Forall_app. split; [|exact F].
        repeat first [apply Forall_nil | apply Forall_cons]; simpl; auto.
    + unfold Script.ret. eexists _, _. split; [reflexivity|].
      repeat first [apply Forall_nil | apply Forall_cons]; simpl; auto.
Qed.

(** X13: an exception of the lookup that is no [Exception], such as the
    interrupt of the operator, is not swallowed: no fallback command is run,
    the exception leaves the reclaimer, and [server.py] and [server2.py] end
    with it before they have constructed a server. *)
Theorem interrupted_lookup_ends_the_script (w : Script.World) (e : exn) :
  Script.subprocess_run w [] (Script.lsof_command Script.PORT) = Raise e ->
  is_Exception e = false ->
  Script.kill_process_on_port w Script.PORT Script.start
  = (Script.extend Script.start [Script.EvRun (Script.lsof_command Script.PORT)],
     Raise e)
  /\ Script.run (Script.server_py w)
     = ([Script.EvRun (Script.lsof_command Script.PORT)],
        Script.terminate (Raise e))
  /\ Script.run (Script.server2_py w)
     = ([Script.EvRun (Script.lsof_command Script.PORT)],
        Script.terminate (Raise e)).
Proof.
  intros L X.
  assert (K : Script.kill_process_on_port w Script.PORT Script.start
              = (Script.extend Script.start
                   [Script.EvRun (Script.lsof_command Script.PORT)], Raise e)).
  { unfold Script.kill_process_on_port, Script.try_except, Script.bind,
      Script.run_command, Script.call.
    cbn [Script.trace Script.start]. rewrite L, X. reflexivity. }
  split; [exact K|].
  rewrite server_py_run, server2_py_run. unfold Script.plain_course.
  rewrite K. split; reflexivity.
Qed.

Lemma interrupted_lookup_ends_the_script_witness :
  Script.run (Script.server_py (Script.interrupted ["server.py"]))
  = ([Script.EvRun ["lsof"; "-ti"; ":8081"]], Script.Traceback KeyboardInterrupt).
Proof.
  apply (proj1 (proj2 (interrupted_lookup_ends_the_script
                         (Script.interrupted ["server.py"]) KeyboardInterrupt
                         eq_refl eq_refl))).
Defined.

(** ** More of the life of a server *)

Section LifecycleFacts.

Import Script.

Variable w : World.

(** A plain variant after its constructor: a failure ends the script
    there; a server that was constructed is served and, however that ends,
    closed. *)
Lemma plain_course_after_bind (pre post : list event) (port : Z) (reuse : bool) :
  fst (plain_course w) = (pre ++ EvBind port reuse :: post)%list ->
  match server_bind w pre port reuse with
  | Raise e => post = [] /\ snd (plain_course w) = terminate (Raise e)
  | Return _ =>
      exists mid,
        post = (plain_banner ++ EvServeForever :: mid ++ [EvServerClose])%list
        /\ existsb is_close mid = false
  end.
Proof.
  destruct (reclaimed_spec w) as (tr & r & E & R & F).
  unfold plain_course. rewrite E.
  pose proof (reclaim_event_not_bind tr F) as NB.
  cbn [trace extend start app].
  destruct r as [e|[]].
  - intros H. apply (no_split is_bind) in H; [|reflexivity].
    simpl in H. congruence.
  - assert (Fin : forall tail, existsb is_bind tail = false ->
      (EvRun (lsof_command PORT) :: tr ++ EvBind PORT true :: tail
       = pre ++ EvBind port reuse :: post)%list ->
      pre = EvRun (lsof_command PORT) :: tr /\ port = PORT /\ reuse = true
      /\ post = tail).
    { intros tail T H.
      apply (split_unique is_bind (EvRun (lsof_command PORT) :: tr) tail) in H;
        try reflexivity; try assumption.
      destruct H as (-> & Hy & ->). inversion Hy. auto. }
    destruct (server_bind w _ PORT true) as [e|[]] eqn:B.
    + cbn [fst snd]. intros H. apply Fin in H; [|reflexivity].
      destruct H as (-> & -> & -> & ->). rewrite B. auto.
    + unfold plain_serving.
      destruct (serve_forever w _) as [[]|[]]; cbn [fst];
        rewrite <- app_assoc; intros H; apply Fin in H; try reflexivity;
        destruct H as (-> & -> & -> & ->); rewrite B;
        first [ now exists [EvPrint (nl ++ "Server stopped.")] | now exists [] ].
Qed.

(** A plain variant whose [serve_forever] ends otherwise than by the
    interrupt: the server is closed and the script ends as [serve_forever]
    did. *)
Lemma plain_course_serve_ends (pre post : list event) :
  fst (plain_course w) = (pre ++ EvServeForever :: post)%list ->
  serve_forever w pre <> Raise KeyboardInterrupt ->
  snd (plain_course w) = terminate (serve_forever w pre)
  /\ post = [EvServerClose].
Proof.
  destruct (reclaimed_spec w) as (tr & r & E & R & F).
  unfold plain_course. rewrite E.
  pose proof (reclaim_event_not_serve _ F) as NS.
  cbn [trace extend start app].
  destruct r as [e|[]].
  - intros H. apply (no_split is_serve) in H; [|reflexivity].
    simpl in H. congruence.
  - destruct (server_bind w _ PORT true) as [e|[]].
    + cbn [fst]. intros H. apply (no_split is_serve) in H; [|reflexivity].
      simpl in H. rewrite existsb_app, NS in H. discriminate.
    + unfold plain_serving.
      assert (NS' : existsb is_serve
                ((EvRun (lsof_command PORT) :: tr)
                 ++ EvBind PORT true :: plain_banner) = false).
      { rewrite existsb_app. simpl. now rewrite NS. }
      destruct (serve_forever w _) as [[]|[]] eqn:S; cbn [fst snd]; intros H K;
        apply (split_unique is_serve) in H; try reflexivity; try exact NS';
        destruct H as (-> & _ & ->); rewrite S in K |- *;
        first [ now contradiction K | split; reflexivity ].
Qed.

Ltac find_event H :=
  lazymatch type of H with
  | [] = (?pre ++ _ :: _)%list => destruct pre; discriminate H
  | (_ :: _) = (?pre ++ _ :: _)%list =>
      let p := fresh "p" in
      let pre' := fresh "pre" in
      let Hp := fresh "Hp" in
      destruct pre as [|p pre']; cbn [app] in H;
      [ try discriminate H
      | injection H as Hp H; try subst p; find_event H ]
  end.

Ltac https_runs :=
  unfold https_course, https_serving, https_banner, diagnostic in *;
  destruct (if (Z.of_nat (List.length (argv w)) <? 2) then Some 8443
            else int_ w (nth 1 (argv w) EmptyString)) as [number|] eqn:Port;
  [ destruct (path_exists w [] "cert.pem") eqn:Cert; cbn [negb] in *;
    [ destruct (path_exists w [EvPathExists "cert.pem"] "key.pem") eqn:Key;
      cbn [negb] in *;
      [ destruct (server_bind w _ number true) as [?e|[]] eqn:Bind;
        [ | destruct (load_cert_chain w _ "cert.pem" "key.pem") as [?e|[]] eqn:Load;
            [ | destruct (wrap_socket w _) as [?e|[]] eqn:Wrap;
                [ | destruct (serve_forever w _) as [[]|[]] eqn:Serve ] ] ]
      | ]
    | ]
  | ];
  cbn [fst snd app map] in *.

Lemma https_course_after_bind (pre post : list event) (port : Z) (reuse : bool) :
  fst (https_course w) = (pre ++ EvBind port reuse :: post)%list ->
  forall e, server_bind w pre port reuse = Raise e ->
  post = [] /\ snd (https_course w) = terminate (Raise e).
Proof.
  intros H e' B. https_runs; find_event H; injection H as <- <- <-;
    pose proof (eq_trans (eq_sym Bind) B) as C; try discriminate C.
  injection C as <-. split; reflexivity.
Qed.

Lemma https_course_never_closes :
  existsb is_close (fst (https_course w)) = false.
Proof. https_runs; reflexivity. Qed.

Lemma https_course_serve_ends (pre post : list event) :
  fst (https_course w) = (pre ++ EvServeForever :: post)%list ->
  serve_forever w pre <> Raise KeyboardInterrupt ->
  snd (https_course w) = terminate (serve_forever w pre) /\ post = [].
Proof.
  intros H K. https_runs; find_event H; injection H as <-;
    match type of Serve with
    | ?l = _ => change (serve_forever w _) with l in K |- *
    end; rewrite Serve in K |- *;
    first [ now contradiction K | split; reflexivity ].
Qed.

(** [https-server.py] enters [serve_forever] on a wrapped socket only. *)
Lemma https_course_serves_wrapped (pre post : list event) :
  fst (https_course w) = (pre ++ EvServeForever :: post)%list ->
  exists port,
    pre = ([ EvPathExists "cert.pem"; EvPathExists "key.pem"; EvBind port true;
             EvLoadCertChain "cert.pem" "key.pem"; EvWrapSocket ]
           ++ https_banner w port)%list
    /\ load_cert_chain w
         [EvPathExists "cert.pem"; EvPathExists "key.pem"; EvBind port true]
         "cert.pem" "key.pem" = Return tt
    /\ wrap_socket w
         [ EvPathExists "cert.pem"; EvPathExists "key.pem"; EvBind port true;
           EvLoadCertChain "cert.pem" "key.pem" ] = Return tt.
Proof.
  intros H. https_runs; find_event H; injection H as <-;
    exists number; (split; [reflexivity | split; assumption]).
Qed.

(** The first line of the diagnostic is printed only for a missing file. *)
Lemma https_course_diagnostic :
  In (EvPrint "Error: cert.pem and key.pem not found!") (fst (https_course w)) ->
  (path_exists w [] "cert.pem" = false
   \/ path_exists w [EvPathExists "cert.pem"] "key.pem" = false)
  /\ snd (https_course w) = Exited 1
  /\ bound (fst (https_course w)) = [].
Proof.
  intros H. https_runs; simpl in H;
    repeat (destruct H as [H|H]; [try discriminate H|]); try contradiction;
    auto.
Qed.

End LifecycleFacts.

(** X14: in each of the three scripts a server constructor that raises
    (the port is still taken, say) ends the script with that exception:
    nothing is printed, served or closed after it. *)
Theorem constructor_failure_ends_the_script
        (w : Script.World) (v : Script.variant) (pre post : list Script.event)
        (port : Z) (reuse : bool) (e : exn) :
  Script.events (Script.script_of v w)
  = (pre ++ Script.EvBind port reuse :: post)%list ->
  Script.server_bind w pre port reuse = Raise e ->
  post = []
  /\ Script.ending (Script.script_of v w) = Script.terminate (Raise e).
Proof.
  unfold Script.events, Script.ending.
  assert (Plain : fst (Script.plain_course w)
                  = (pre ++ Script.EvBind port reuse :: post)%list ->
                  Script.server_bind w pre port reuse = Raise e ->
                  post = []
                  /\ snd (Script.plain_course w) = Script.terminate (Raise e)).
  { intros H B. pose proof (plain_course_after_bind w pre post port reuse H) as A.
    rewrite B in A. exact A. }
  destruct v; cbn [Script.script_of].
  - rewrite server_py_run. exact Plain.
  - rewrite server2_py_run. exact Plain.
  - rewrite https_server_py_run. intros H B.
    exact (https_course_after_bind w pre post port reuse H e B).
Qed.

Lemma constructor_failure_ends_the_script_witness :
  Script.ending (Script.script_of Script.ServerPy (Script.occupied ["server.py"]))
  = Script.Traceback OSError.
Proof.
  apply (proj2 (constructor_failure_ends_the_script
                  (Script.occupied ["server.py"]) Script.ServerPy
                  [Script.EvRun ["lsof"; "-ti"; ":8081"]] [] 8081 true OSError
                  eq_refl eq_refl)).
Defined.

(** X15: [server.py] and [server2.py] close every server they have
    constructed: after a constructor that returned, the banner is printed,
    [serve_forever] is entered, and [server_close] is the last thing the
    script does, after the [Server stopped.] line if there is one, however
    [serve_forever] ended. *)
Theorem plain_server_is_always_closed
        (w : Script.World) (v : Script.variant) (pre post : list Script.event)
        (port : Z) (reuse : bool) :
  v <> Script.HttpsServerPy ->
  Script.events (Script.script_of v w)
  = (pre ++ Script.EvBind port reuse :: post)%list ->
  Script.server_bind w pre port reuse = Return tt ->
  exists mid,
    post = (Script.plain_banner ++ Script.EvServeForever :: mid
            ++ [Script.EvServerClose])%list
    /\ existsb Script.is_close mid = false.
Proof.
  unfold Script.events.
  assert (Plain : fst (Script.plain_course w)
                  = (pre ++ Script.EvBind port reuse :: post)%list ->
                  Script.server_bind w pre port reuse = Return tt ->
                  exists mid,
                    post = (Script.plain_banner ++ Script.EvServeForever :: mid
                            ++ [Script.EvServerClose])%list
                    /\ existsb Script.is_close mid = false).
  { intros H B. pose proof (plain_course_after_bind w pre post port reuse H) as A.
    rewrite B in A. exact A. }
  intros V. destruct v; cbn [Script.script_of]; [| |congruence].
  - rewrite server_py_run. exact Plain.
  - rewrite server2_py_run. exact Plain.
Qed.

Lemma plain_server_is_always_closed_witness :
  exists mid,
    (Script.plain_banner ++ [Script.EvServeForever; Script.EvServerClose])%list
    = (Script.plain_banner ++ Script.EvServeForever :: mid
       ++ [Script.EvServerClose])%list
    /\ existsb Script.is_close mid = false.
Proof.
  assert (V : Script.Server2Py <> Script.HttpsServerPy) by discriminate.
  exact (plain_server_is_always_closed
           (Script.failing ["server2.py"]) Script.Server2Py
           [Script.EvRun ["lsof"; "-ti"; ":8081"]]
           (Script.plain_banner ++ [Script.EvServeForever; Script.EvServerClose])%list
           8081 true V eq_refl eq_refl).
Defined.

(** X16: [https-server.py] never closes its server: no run of it has a
    [server_close], whether it ends by the interrupt, by an error or at
    start-up. *)
Theorem https_server_is_never_closed (w : Script.World) :
  existsb Script.is_close (Script.events (Script.https_server_py w)) = false.
Proof.
  unfold Script.events. rewrite https_server_py_run.
  apply https_course_never_closes.
Qed.

(** X17: [https-server.py] serves on a wrapped socket only: whenever
    [serve_forever] is entered, the two files were found, the server was
    constructed with address reuse, the certificate chain was loaded and the
    socket wrapped, both without error, and the banner was printed, in that
    order and with nothing else before. *)
Theorem https_serves_after_wrap
        (w : Script.World) (pre post : list Script.event) :
  Script.events (Script.https_server_py w)
  = (pre ++ Script.EvServeForever :: post)%list ->
  exists port,
    pre = ([ Script.EvPathExists "cert.pem"; Script.EvPathExists "key.pem";
             Script.EvBind port true;
             Script.EvLoadCertChain "cert.pem" "key.pem"; Script.EvWrapSocket ]
           ++ Script.https_banner w port)%list
    /\ Script.load_cert_chain w
         [ Script.EvPathExists "cert.pem"; Script.EvPathExists "key.pem";
           Script.EvBind port true ] "cert.pem" "key.pem" = Return tt
    /\ Script.wrap_socket w
         [ Script.EvPathExists "cert.pem"; Script.EvPathExists "key.pem";
           Script.EvBind port true;
           Script.EvLoadCertChain "cert.pem" "key.pem" ] = Return tt.
Proof.
  unfold Script.events. rewrite https_server_py_run.
  apply https_course_serves_wrapped.
Qed.

Lemma https_serves_after_wrap_witness :
  exists port,
    ([ Script.EvPathExists "cert.pem"; Script.EvPathExists "key.pem";
       Script.EvBind 9443 true;
       Script.EvLoadCertChain "cert.pem" "key.pem"; Script.EvWrapSocket ]
     ++ Script.https_banner (Script.calm ["https-server.py"; "9443"]) 9443)%list
    = ([ Script.EvPathExists "cert.pem"; Script.EvPathExists "key.pem";
         Script.EvBind port true;
         Script.EvLoadCertChain "cert.pem" "key.pem"; Script.EvWrapSocket ]
       ++ Script.https_banner (Script.calm ["https-server.py"; "9443"]) port)%list.
Proof.
  destruct (https_serves_after_wrap
              (Script.calm ["https-server.py"; "9443"])
              ([ Script.EvPathExists "cert.pem"; Script.EvPathExists "key.pem";
                 Script.EvBind 9443 true;
                 Script.EvLoadCertChain "cert.pem" "key.pem"; Script.EvWrapSocket ]
               ++ Script.https_banner (Script.calm ["https-server.py"; "9443"]) 9443)%list
              [Script.EvPrint (Script.nl ++ Script.nl ++ "Server stopped.")]
              eq_refl) as (port & E & _).
  exists port. exact E.
Defined.

(** X18: the diagnostic of [https-server.py] is printed for a missing file
    only: a run that prints its first line found [cert.pem] or [key.pem]
    missing, ends with status 1 and has constructed no server. *)
Theorem diagnostic_means_missing_material (w : Script.World) :
  In (Script.EvPrint "Error: cert.pem and key.pem not found!")
     (Script.events (Script.https_server_py w)) ->
  (Script.path_exists w [] "cert.pem" = false
   \/ Script.path_exists w [Script.EvPathExists "cert.pem"] "key.pem" = false)
  /\ Script.ending (Script.https_server_py w) = Script.Exited 1
  /\ Script.bound (Script.events (Script.https_server_py w)) = [].
Proof.
  unfold Script.events, Script.ending. rewrite https_server_py_run.
  apply https_course_diagnostic.
Qed.

Lemma diagnostic_means_missing_material_witness :
  Script.ending (Script.https_server_py (Script.no_key ["https-server.py"]))
  = Script.Exited 1.
Proof.
  apply (diagnostic_means_missing_material (Script.no_key ["https-server.py"])).
  simpl. tauto.
Defined.

(** X19: [https-server.py] takes any integer that [int] reads from its first
    argument as the port, without a check of its range: with both files there
    the server constructor is called with that integer, be it negative or
    above 65535. *)
Theorem https_port_is_not_validated (w : Script.World) (a : string) (n : Z) :
  Script.port_argument (Script.argv w) = Some a ->
  Script.int_ w a = Some n ->
  Script.path_exists w [] "cert.pem" = true ->
  Script.path_exists w [Script.EvPathExists "cert.pem"] "key.pem" = true ->
  exists post,
    Script.events (Script.https_server_py w)
    = Script.EvPathExists "cert.pem" :: Script.EvPathExists "key.pem"
      :: Script.EvBind n true :: post.
Proof.
  intros A N C K. unfold Script.events. rewrite https_server_py_run.
  unfold Script.https_course. rewrite (https_port_choice w (Script.argv w)), A, N.
  rewrite C, K. cbn [negb]. unfold Script.https_serving.
  destruct (Script.server_bind w _ n true) as [e|[]]; [eexists; reflexivity|].
  destruct (Script.load_cert_chain w _ "cert.pem" "key.pem") as [e|[]];
    [eexists; reflexivity|].
  destruct (Script.wrap_socket w _) as [e|[]]; [eexists; reflexivity|].
  destruct (Script.serve_forever w _) as [[]|[]]; eexists; reflexivity.
Qed.

Lemma https_port_is_not_validated_witness :
  exists post,
    Script.events (Script.https_server_py (Script.calm ["https-server.py"; "-70000"]))
    = Script.EvPathExists "cert.pem" :: Script.EvPathExists "key.pem"
      :: Script.EvBind (-70000) true :: post.
Proof.
  apply (https_port_is_not_validated
           (Script.calm ["https-server.py"; "-70000"]) "-70000" (-70000));
    reflexivity.
Defined.

(** X20: only the interrupt is a clean end of [serve_forever]: when it
    ends in another way, no [Server stopped.] line is printed and the script
    ends as [serve_forever] did, with the traceback of its exception; the
    plain variants close the server first. *)
Theorem other_end_of_serving
        (w : Script.World) (v : Script.variant) (pre post : list Script.event) :
  Script.events (Script.script_of v w)
  = (pre ++ Script.EvServeForever :: post)%list ->
  Script.serve_forever w pre <> Raise KeyboardInterrupt ->
  Script.ending (Script.script_of v w)
  = Script.terminate (Script.serve_forever w pre)
  /\ post = match v with
            | Script.HttpsServerPy => []
            | _ => [Script.EvServerClose]
            end.
Proof.
  unfold Script.events, Script.ending.
  destruct v; cbn [Script.script_of].
  - rewrite server_py_run. apply plain_course_serve_ends.
  - rewrite server2_py_run. apply plain_course_serve_ends.
  - rewrite https_server_py_run. apply https_course_serve_ends.
Qed.

Lemma other_end_of_serving_witness :
  Script.ending (Script.script_of Script.ServerPy (Script.failing ["server.py"]))
  = Script.Traceback OSError.
Proof.
  refine (proj1 (other_end_of_serving
                   (Script.failing ["server.py"]) Script.ServerPy
                   ([Script.EvRun ["lsof"; "-ti"; ":8081"]; Script.EvBind 8081 true]
                    ++ Script.plain_banner)%list
                   [Script.EvServerClose] eq_refl _)).
  discriminate.
Defined.
